(** * hoomd_organics.base.system: a shallow embedding of [System], [Pack]
    and [Lattice], and the properties of their bookkeeping code.

    Conventions.  Python floats are read as exact numbers: rationals ([Q])
    where the code only adds, multiplies and divides, real numbers ([R])
    where it takes roots.  Python exceptions are values of [exn]; a method
    that may raise returns a [result].  Objects of the external libraries
    (mbuild compounds, gmso sites, parmed atoms) are records holding the
    attributes the code reads or writes. *)

From Stdlib Require Import QArith Qabs Qminmax Lqa Reals Lra Lia.
From stdpp Require Import gmap strings list fin_maps pretty.

Set Default Proof Using "Type".

(** ** Python exceptions and results *)

Inductive exn : Type :=
  | ValueError (msg : string)
  | TypeError
  | IndexError
  | AttributeError
  | ZeroDivisionError
  | MoleculeLoadError
  | ForceFieldError
  | OtherError (msg : string).

Inductive result (A : Type) : Type :=
  | Ok (a : A)
  | Raise (e : exn).
Arguments Ok {A} a.
Arguments Raise {A} e.

#[global] Instance result_ret : MRet result := fun A a => Ok a.
#[global] Instance result_bind : MBind result := fun A B k r =>
  match r with
  | Ok a => k a
  | Raise e => Raise e
  end.

(** ** Sums of rationals *)

(** Python's [sum(xs)] starts from [0] and adds from the left. *)
Definition py_sum (xs : list Q) : Q := fold_left Qplus xs 0%Q.

(** ** gmso sites *)

(** A [unyt] quantity: a number and the unit it is expressed in. *)
Record quantity : Type := Quantity { q_value : Q; q_units : string }.

(** The attributes of a gmso site that [System] touches.  [charge] may be
    [None]; [epsilon] and [sigma] are [atom_type.parameters]. *)
Record site : Type := Site {
  charge : option Q;
  mass : quantity;
  epsilon : quantity;
  sigma : quantity
}.

Definition set_charge (s : site) (c : option Q) : site :=
  {| charge := c; mass := mass s; epsilon := epsilon s; sigma := sigma s |}.

Module Charges.

(** [site.charge if site.charge else 0]: [None] and a zero charge are both
    falsy. *)
Definition charge_or_zero (s : site) : Q :=
  match charge s with
  | Some q => if Qeq_bool q 0 then 0%Q else q
  | None => 0%Q
  end.

(** [System.net_charge] *)
Definition net_charge (sites : list site) : Q :=
  py_sum (map charge_or_zero sites).

(** [site.charge -= x]: subtracting from [None] is a [TypeError]. *)
Definition isub_charge (s : site) (x : Q) : result site :=
  match charge s with
  | Some q => Ok (set_charge s (Some (q - x)%Q))
  | None => Raise TypeError
  end.

(** The loop of [_scale_charges] over the sites, [ratio] being
    [net_charge / abs_charge]. *)
Fixpoint scale_loop (ratio : Q) (sites : list site) : result (list site) :=
  match sites with
  | [] => Ok []
  | s :: rest =>
      s' ← isub_charge s (Qabs (charge_or_zero s) * ratio)%Q;
      rest' ← scale_loop ratio rest;
      Ok (s' :: rest')
  end.

(** [System._scale_charges] *)
Definition _scale_charges (sites : list site) : result (list site) :=
  let charges := map charge_or_zero sites in
  let net_charge := py_sum charges in
  let abs_charge := py_sum (map Qabs charges) in
  if negb (Qeq_bool abs_charge 0)
  then scale_loop (net_charge / abs_charge)%Q sites
  else Ok sites.

(** The sum of the absolute charges, [abs_charge] of [_scale_charges]. *)
Definition abs_sum (sites : list site) : Q :=
  py_sum (map Qabs (map charge_or_zero sites)).

(** What the loop of [_scale_charges] writes, site by site: [q] becomes
    [q - |q| * ratio]. *)
Definition rescaled (ratio : Q) (s s' : site) : Prop :=
  exists q q', charge s = Some q /\ charge s' = Some q'
               /\ (q' == q - Qabs q * ratio)%Q.

(** A scaled charge is on the side of zero the charge was on. *)
Definition sign_kept (s s' : site) : Prop :=
  forall q q', charge s = Some q -> charge s' = Some q' ->
    ((0 <= q)%Q -> (0 <= q')%Q) /\ ((q <= 0)%Q -> (q' <= 0)%Q).

(** Two sites with a charge each, and the two charges equal. *)
Definition same_charge (s s' : site) : Prop :=
  exists q q', charge s = Some q /\ charge s' = Some q' /\ (q' == q)%Q.

End Charges.

(** ** Hydrogen removal on the parmed structure *)

Module Hydrogens.
Local Open Scope Q_scope.

(** A parmed atom.  [element] is parmed's alias of [atomic_number];
    [bond_partners] holds the positions, in the structure's atom list, of
    the atoms bonded to this one, in the order parmed returns them. *)
Record atom : Type := Atom {
  atomic_number : Z;
  a_mass : Q;
  a_charge : Q;
  bond_partners : list nat
}.

Definition element (a : atom) : Z := atomic_number a.

Definition set_atomic_number (a : atom) (z : Z) : atom :=
  {| atomic_number := z; a_mass := a_mass a; a_charge := a_charge a;
     bond_partners := bond_partners a |}.

Definition add_mass (a : atom) (m : Q) : atom :=
  {| atomic_number := atomic_number a; a_mass := a_mass a + m;
     a_charge := a_charge a; bond_partners := bond_partners a |}.

Definition add_charge (a : atom) (c : Q) : atom :=
  {| atomic_number := atomic_number a; a_mass := a_mass a;
     a_charge := a_charge a + c; bond_partners := bond_partners a |}.

(** The test [p] on the atom at position [i]. *)
Definition selected (p : atom -> bool) (atoms : list atom) (i : nat) : bool :=
  match atoms !! i with
  | Some a => p a
  | None => false
  end.

(** [[a for a in parmed_struc.atoms if p(a)]], as positions. *)
Definition select (p : atom -> bool) (atoms : list atom) : list nat :=
  List.filter (selected p atoms) (seq 0 (length atoms)).

Definition by_element (a : atom) : bool := (element a =? 1)%Z.
Definition by_mass (a : atom) : bool := Qeq_bool (a_mass a) (1008 # 1000).

(** The hydrogens [_remove_hydrogens] works on: by element first, by mass
    when there are none. *)
Definition find_hydrogens (atoms : list atom) : list nat :=
  let hydrogens := select by_element atoms in
  if (length hydrogens =? 0)%nat then select by_mass atoms else hydrogens.

(** In-place update of the atom at position [i]. *)
Definition update (atoms : list atom) (i : nat) (f : atom -> atom)
  : result (list atom) :=
  match atoms !! i with
  | Some a => Ok (<[i := f a]> atoms)
  | None => Raise IndexError
  end.

Definition getitem {A} (l : list A) (i : nat) : result A :=
  match l !! i with
  | Some a => Ok a
  | None => Raise IndexError
  end.

(** One turn of [for h in hydrogens]. *)
Definition absorb (atoms : list atom) (h : nat) : result (list atom) :=
  atoms ← update atoms h (fun a => set_atomic_number a 1);
  ha ← getitem atoms h;
  bonded_atom ← getitem (bond_partners ha) 0;
  atoms ← update atoms bonded_atom (fun a => add_mass a (a_mass ha));
  ha ← getitem atoms h;
  update atoms bonded_atom (fun a => add_charge a (a_charge ha)).

Fixpoint absorb_all (atoms : list atom) (hydrogens : list nat)
  : result (list atom) :=
  match hydrogens with
  | [] => Ok atoms
  | h :: rest => atoms ← absorb atoms h; absorb_all atoms rest
  end.

(** [parmed_struc.strip(sel)]: the selected atoms are deleted, with the
    bonds they take part in, and the others are renumbered. *)
Definition kept (a : atom) : bool := negb (atomic_number a =? 1)%Z.

Definition new_index (atoms : list atom) (i : nat) : nat :=
  length (List.filter kept (take i atoms)).

Definition reindex (atoms : list atom) (a : atom) : atom :=
  {| atomic_number := atomic_number a; a_mass := a_mass a;
     a_charge := a_charge a;
     bond_partners :=
       map (new_index atoms)
         (List.filter
            (fun i => match atoms !! i with
                      | Some b => kept b
                      | None => false
                      end)
            (bond_partners a)) |}.

Definition strip (atoms : list atom) : list atom :=
  map (reindex atoms) (List.filter kept atoms).

(** [System._remove_hydrogens], on the parmed view of the topology (the
    conversions [to_parmed] and [from_parmed] carry elements, masses,
    charges and bonds over unchanged).  The warning is not modelled. *)
Definition _remove_hydrogens (atoms : list atom) : result (list atom) :=
  let hydrogens := find_hydrogens atoms in
  parmed_struc ← absorb_all atoms hydrogens;
  let parmed_struc := strip parmed_struc in
  if (0 <? length hydrogens)%nat then Ok parmed_struc else Ok atoms.

(** [System.mass] and [System.net_charge] read on the atoms. *)
Definition total_mass (atoms : list atom) : Q := py_sum (map a_mass atoms).
Definition total_charge (atoms : list atom) : Q := py_sum (map a_charge atoms).

(** The atom the mass of hydrogen [h] goes to. *)
Definition first_partner (atoms : list atom) (h : nat) : option nat :=
  a ← atoms !! h; bond_partners a !! 0%nat.

(** Every hydrogen has a first bond partner, and it is not a hydrogen. *)
Definition first_partners_heavy (atoms : list atom) : Prop :=
  forall h, h ∈ find_hydrogens atoms ->
    exists b, first_partner atoms h = Some b
              /\ (b < length atoms)%nat
              /\ b ∉ find_hydrogens atoms.

(** Every hydrogen is bonded to at least one atom that is not a
    hydrogen. *)
Definition bonded_to_heavy (atoms : list atom) : Prop :=
  forall h, h ∈ find_hydrogens atoms ->
    exists a b, atoms !! h = Some a
                /\ b ∈ bond_partners a
                /\ (b < length atoms)%nat
                /\ b ∉ find_hydrogens atoms.

(** Sum of [f i] over the positions [i < n]. *)
Fixpoint wsum (f : nat -> Q) (n : nat) : Q :=
  match n with
  | O => 0
  | S n => wsum f n + f n
  end.

(** The attribute [w] of the atom at position [i]; 0 out of range. *)
Definition at_pos (w : atom -> Q) (atoms : list atom) (i : nat) : Q :=
  from_option w 0 (atoms !! i).

(** The same, counted for the positions outside [q] only. *)
Definition heavy (q : nat -> bool) (w : atom -> Q) (atoms : list atom)
    (i : nat) : Q :=
  if q i then 0 else at_pos w atoms i.

(** What one turn of the loop changes. *)
Definition absorbed (h b : nat) (atoms atoms' : list atom) : Prop :=
  length atoms' = length atoms
  /\ (forall i, first_partner atoms' i = first_partner atoms i)
  /\ (forall i, atomic_number <$> atoms' !! i
                = if decide (i = h) then Some 1%Z
                  else atomic_number <$> atoms !! i)
  /\ (forall i, at_pos a_mass atoms' i
                == at_pos a_mass atoms i
                   + if (i =? b)%nat then at_pos a_mass atoms h else 0)
  /\ (forall i, at_pos a_charge atoms' i
                == at_pos a_charge atoms i
                   + if (i =? b)%nat then at_pos a_charge atoms h else 0).

(** A hydrogen of the set [q] whose first bond partner is outside [q]. *)
Definition absorbable (q : nat -> bool) (atoms : list atom) (h : nat) : Prop :=
  q h = true
  /\ exists b, first_partner atoms h = Some b
               /\ (b < length atoms)%nat /\ q b = false.

(** Every bond leads to an atom of the structure. *)
Definition bonds_in_range (atoms : list atom) : Prop :=
  forall i a b, atoms !! i = Some a -> b ∈ bond_partners a ->
                (b < length atoms)%nat.

End Hydrogens.

(** ** Box lengths from the density *)

Module TargetBox.
Local Open Scope R_scope.

(** [x / y] on floats. *)
Definition py_div (x y : R) : result R :=
  if Req_dec_T y 0 then Raise ZeroDivisionError else Ok (x / y).

(** [x ** y] on floats, for a positive exponent.  A negative base gives a
    complex number in Python; the model does not follow the computation
    further and reports it as [OtherError]. *)
Definition py_pow (x y : R) : result R :=
  if Rlt_dec 0 x then Ok (Rpower x y)
  else if Req_dec_T x 0 then Ok 0
  else Raise (OtherError "complex").

(** [np.prod] *)
Definition np_prod (xs : list R) : R := fold_right Rmult 1 xs.

(** [System._calculate_L]; [mass] is the value of [self.mass] (amu),
    [density] of [self.density] (g/cm^3). *)
Definition _calculate_L (mass density : R) (fixed_L : option (list R))
  : result R :=
  let M := mass * 1.66054e-24 in
  vol ← py_div M density;
  L ← match fixed_L with
      | None => py_pow vol (1 / 3)
      | Some fixed_L =>
          L ← py_div vol (np_prod fixed_L);
          if (length fixed_L =? 1)%nat then py_pow L (1 / 2) else Ok L
      end;
  Ok (L * 1e7).

(** Truth value of a constraint: [None] and [0.0] are falsy. *)
Definition truthy (c : option R) : bool :=
  match c with
  | None => false
  | Some x => if Req_dec_T x 0 then false else true
  end.

(** [constraints is not None] and [constraints is None] compare the array
    object itself with [None]: an array is never [None], whatever it
    holds. *)
Definition array_is_not_None (constraints : list (option R)) : bool := true.
Definition array_is_None (constraints : list (option R)) : bool := false.

(** [np.where(b)] of a Python bool, as numpy 1.x computes it: the positions
    of the nonzero entries of the scalar seen as an array of one element. *)
Definition np_where (b : bool) : list nat := if b then [0%nat] else [].

(** [a[idx]] for an index array: a new array of the entries at [idx]. *)
Fixpoint take_at {A} (a : list A) (idx : list nat) : result (list A) :=
  match idx with
  | [] => Ok []
  | i :: idx =>
      match a !! i with
      | Some x => xs ← take_at a idx; Ok (x :: xs)
      | None => Raise IndexError
      end
  end.

(** [a[idx] = v] for an index array. *)
Fixpoint put_at {A} (a : list A) (idx : list nat) (v : A) : result (list A) :=
  match idx with
  | [] => Ok a
  | i :: idx =>
      match a !! i with
      | Some _ => put_at (<[i := v]> a) idx v
      | None => Raise IndexError
      end
  end.

(** [fixed_L *= k] on an array that may hold [None]. *)
Fixpoint imul (a : list (option R)) (k : R) : result (list R) :=
  match a with
  | [] => Ok []
  | None :: _ => Raise TypeError
  | Some x :: a => xs ← imul a k; Ok (x * k :: xs)
  end.

(** [System.set_target_box]; the result is the new [target_box]. *)
Definition set_target_box (mass density : R)
    (x_constraint y_constraint z_constraint : option R)
  : result (list (option R)) :=
  if negb (existsb truthy [x_constraint; y_constraint; z_constraint]) then
    L ← _calculate_L mass density None;
    Ok [Some L; Some L; Some L]
  else
    let constraints := [x_constraint; y_constraint; z_constraint] in
    fixed_L ← take_at constraints (np_where (array_is_not_None constraints));
    fixed_L ← imul fixed_L 1e-7;
    L ← _calculate_L mass density (Some fixed_L);
    constraints ←
      put_at constraints (np_where (array_is_None constraints)) (Some L);
    Ok constraints.

(** Volume in cm^3 of a box whose lengths are in nm. *)
Definition volume_cm3 (Lx Ly Lz : R) : R :=
  (Lx * 1e-7) * (Ly * 1e-7) * (Lz * 1e-7).

(** Mass in grams of a mass in amu. *)
Definition grams (mass : R) : R := mass * 1.66054e-24.

End TargetBox.

(** ** Reference values *)

Module RefValues.

(** [u.dimensions.length], [.energy] and [.mass] *)
Inductive dimension : Type := dim_length | dim_energy | dim_mass.

Definition ref_keys : list string := ["length"; "mass"; "energy"].

Section Setters.
Context {raw validated : Type}.

(** [hoomd_organics.utils.validate_ref_value] is not among the sources; the
    setters are read for any such function, which returns the validated
    quantity or raises. *)
Variable validate_ref_value : raw -> dimension -> result validated.

(** The setters of [reference_length], [reference_energy] and
    [reference_mass]: the new [_reference_values] and the outcome. *)
Definition set_reference_length (rv : gmap string validated) (length : raw)
  : gmap string validated * result unit :=
  match validate_ref_value length dim_length with
  | Ok validated_length => (<["length" := validated_length]> rv, Ok ())
  | Raise e => (rv, Raise e)
  end.

Definition set_reference_energy (rv : gmap string validated) (energy : raw)
  : gmap string validated * result unit :=
  match validate_ref_value energy dim_energy with
  | Ok validated_energy => (<["energy" := validated_energy]> rv, Ok ())
  | Raise e => (rv, Raise e)
  end.

Definition set_reference_mass (rv : gmap string validated) (mass : raw)
  : gmap string validated * result unit :=
  match validate_ref_value mass dim_mass with
  | Ok validated_mass => (<["mass" := validated_mass]> rv, Ok ())
  | Raise e => (rv, Raise e)
  end.

(** [self.__setattr__(name, v)] for the three properties; any other name
    is a plain attribute and leaves [_reference_values] alone. *)
Definition setattr (name : string) (rv : gmap string validated) (v : raw)
  : gmap string validated * result unit :=
  if String.eqb name "reference_length" then set_reference_length rv v
  else if String.eqb name "reference_energy" then set_reference_energy rv v
  else if String.eqb name "reference_mass" then set_reference_mass rv v
  else (rv, Ok ()).

Fixpoint setter_loop (ref_keys : list string) (rv : gmap string validated)
    (ref_value_dict : gmap string raw)
  : gmap string validated * result unit :=
  match ref_keys with
  | [] => (rv, Ok ())
  | k :: ref_keys =>
      match ref_value_dict !! k with
      | None => (rv, Raise (ValueError ("Missing reference for " +:+ k +:+ ".")))
      | Some v =>
          match setattr ("reference_" +:+ k) rv v with
          | (rv, Ok _) => setter_loop ref_keys rv ref_value_dict
          | (rv, Raise e) => (rv, Raise e)
          end
      end
  end.

(** The setter of [System.reference_values]. *)
Definition set_reference_values (rv : gmap string validated)
    (ref_value_dict : gmap string raw)
  : gmap string validated * result unit :=
  setter_loop ref_keys rv ref_value_dict.

End Setters.

(** The dimension the setter of [reference_<k>] validates against. *)
Definition dimension_of (k : string) : dimension :=
  if String.eqb k "length" then dim_length
  else if String.eqb k "energy" then dim_energy
  else dim_mass.

(** A validation that accepts every value as it is. *)
Definition accept_all (v : nat) (d : dimension) : result nat := Ok v.

(** The getters: [self._reference_values.get(key, None)]. *)
Definition reference_length {validated : Type}
    (rv : gmap string validated) : option validated := rv !! "length".
Definition reference_mass {validated : Type}
    (rv : gmap string validated) : option validated := rv !! "mass".
Definition reference_energy {validated : Type}
    (rv : gmap string validated) : option validated := rv !! "energy".

End RefValues.

(** ** Collecting molecules and force fields in [System.__init__] *)

Module Collect.

(** [str(n)] of a natural number. *)
Definition py_str (n : nat) : string := pretty n.

Section Init.
Context {hoomd_force gmso_ff : Type}.

(** Truth value of a gmso force-field object. *)
Variable truth : gmso_ff -> bool.

(** [hoomd_organics.utils.xml_to_gmso_ff] is not among the sources. *)
Variable xml_to_gmso_ff : string -> gmso_ff.

(** The [force_field] of a [Molecule] together with its [ff_type]: none,
    a list of HOOMD forces ([FF_Types.Hoomd]), or an XML force field. *)
Inductive molecule_ff : Type :=
  | NoFF
  | HoomdFF (forces : list hoomd_force)
  | XmlFF (xml : string).

Definition ff_truthy (f : molecule_ff) : bool :=
  match f with
  | NoFF => false
  | HoomdFF forces => negb (length forces =? 0)
  | XmlFF xml => negb (String.eqb xml "")
  end.

(** A [Molecule]: its compounds (mbuild compounds are objects; a compound
    is named here by its identity) and its force field. *)
Record Molecule : Type := {
  molecules : list nat;
  force_field : molecule_ff
}.

(** What a list inside [molecules] holds. *)
Inductive sub_item : Type :=
  | SubCompound (c : nat)
  | SubOther.

(** An item of the [molecules] argument, by the [isinstance] tests. *)
Inductive mol_item : Type :=
  | ItemMolecule (m : Molecule)
  | ItemCompound (c : nat)
  | ItemList (subs : list sub_item)
  | ItemOther.

(** The part of the [System] object the collection writes.  [names] holds
    the [name] attribute of every compound object. *)
Record state : Type := State {
  names : gmap nat string;
  all_molecules : list nat;
  _hoomd_forcefield : list hoomd_force;
  _gmso_forcefields_dict : gmap string gmso_ff;
  n_mol_types : nat
}.

Definition init_state (names0 : gmap nat string) : state :=
  {| names := names0; all_molecules := []; _hoomd_forcefield := [];
     _gmso_forcefields_dict := ∅; n_mol_types := 0 |}.

(** Modelled from the spec: [Molecule.assign_mol_name] (base/molecule.py is
    not among the sources) gives the name to each compound of the
    molecule. *)
Definition assign_mol_name (cs : list nat) (name : string)
    (nm : gmap nat string) : gmap nat string :=
  foldl (fun nm c => <[c := name]> nm) nm cs.

(** The loop over a list item. *)
Fixpoint collect_subs (subs : list sub_item) (st : state) : result state :=
  match subs with
  | [] => Ok st
  | SubCompound c :: subs =>
      collect_subs subs
        {| names := <[c := py_str (n_mol_types st)]> (names st);
           all_molecules := all_molecules st ++ [c];
           _hoomd_forcefield := _hoomd_forcefield st;
           _gmso_forcefields_dict := _gmso_forcefields_dict st;
           n_mol_types := n_mol_types st |}
  | SubOther :: _ => Raise MoleculeLoadError
  end.

Definition incr_mol_types (st : state) : state :=
  {| names := names st; all_molecules := all_molecules st;
     _hoomd_forcefield := _hoomd_forcefield st;
     _gmso_forcefields_dict := _gmso_forcefields_dict st;
     n_mol_types := n_mol_types st + 1 |}.

(** One turn of [for mol_item in self._molecules]. *)
Definition collect_item (st : state) (item : mol_item) : result state :=
  match item with
  | ItemMolecule m =>
      let n := n_mol_types st in
      let ff := force_field m in
      Ok {| names := assign_mol_name (molecules m) (py_str n) (names st);
            all_molecules := all_molecules st ++ molecules m;
            _hoomd_forcefield :=
              match ff with
              | HoomdFF forces =>
                  if ff_truthy ff then _hoomd_forcefield st ++ forces
                  else _hoomd_forcefield st
              | _ => _hoomd_forcefield st
              end;
            _gmso_forcefields_dict :=
              match ff with
              | XmlFF xml =>
                  if ff_truthy ff
                  then <[py_str n := xml_to_gmso_ff xml]>
                         (_gmso_forcefields_dict st)
                  else _gmso_forcefields_dict st
              | _ => _gmso_forcefields_dict st
              end;
            n_mol_types := n + 1 |}
  | ItemCompound c =>
      Ok {| names := <[c := py_str (n_mol_types st)]> (names st);
            all_molecules := all_molecules st ++ [c];
            _hoomd_forcefield := _hoomd_forcefield st;
            _gmso_forcefields_dict := _gmso_forcefields_dict st;
            n_mol_types := n_mol_types st |}
  | ItemList subs =>
      st ← collect_subs subs st; Ok (incr_mol_types st)
  | ItemOther => Ok st
  end.

(** Lines 74 to 102: collecting all molecules. *)
Fixpoint collect (st : state) (items : list mol_item) : result state :=
  match items with
  | [] => Ok st
  | item :: items => st ← collect_item st item; collect st items
  end.

(** An entry of the [force_field] argument: it may have no [gmso_ff]
    attribute at all, or one that is [None], or one holding an object. *)
Inductive ff_entry : Type :=
  | NoAttribute
  | Attribute (gmso_ff_value : option gmso_ff).

(** [getattr(entry, "gmso_ff")], without default. *)
Definition getattr_gmso_ff (entry : ff_entry) : result (option gmso_ff) :=
  match entry with
  | NoAttribute => Raise AttributeError
  | Attribute v => Ok v
  end.

(** Truth value of [None] or an object. *)
Definition opt_truthy (v : option gmso_ff) : bool :=
  match v with
  | None => false
  | Some g => truth g
  end.

Definition getitem {A} (l : list A) (i : nat) : result A :=
  match l !! i with
  | Some a => Ok a
  | None => Raise IndexError
  end.

(** The index chosen at lines 108 to 113. *)
Definition ff_index (i len : nat) : nat := if i <? len then i else 0.

Definition set_gmso_ff (st : state) (k : string) (g : gmso_ff) : state :=
  {| names := names st; all_molecules := all_molecules st;
     _hoomd_forcefield := _hoomd_forcefield st;
     _gmso_forcefields_dict := <[k := g]> (_gmso_forcefields_dict st);
     n_mol_types := n_mol_types st |}.

(** One turn of [for i in range(self.n_mol_types)]. *)
Definition forcefield_step (_force_field : list ff_entry) (st : state)
    (i : nat) : result state :=
  if negb (opt_truthy (_gmso_forcefields_dict st !! py_str i)) then
    entry ← getitem _force_field (ff_index i (length _force_field));
    v ← getattr_gmso_ff entry;
    match v with
    | Some g =>
        if truth g then Ok (set_gmso_ff st (py_str i) g)
        else Raise ForceFieldError
    | None => Raise ForceFieldError
    end
  else Ok st.

Fixpoint forcefield_loop (_force_field : list ff_entry) (st : state)
    (range : list nat) : result state :=
  match range with
  | [] => Ok st
  | i :: range =>
      st ← forcefield_step _force_field st i;
      forcefield_loop _force_field st range
  end.

(** Lines 104 to 123; [force_field] is the argument once through
    [check_return_iterable], [None] when it was not given. *)
Definition collect_forcefields (force_field : option (list ff_entry))
    (st : state) : result state :=
  match force_field with
  | Some (e :: es) =>
      forcefield_loop (e :: es) st (seq 0 (n_mol_types st))
  | _ => Ok st
  end.

(** [System.__init__] up to line 123. *)
Definition init (names0 : gmap nat string) (molecules : list mol_item)
    (force_field : option (list ff_entry)) : result state :=
  st ← collect (init_state names0) molecules;
  collect_forcefields force_field st.

(** The compounds an item brings. *)
Definition sub_compounds (subs : list sub_item) : list nat :=
  omap (fun s => match s with SubCompound c => Some c | SubOther => None end)
    subs.

Definition item_compounds (item : mol_item) : list nat :=
  match item with
  | ItemMolecule m => molecules m
  | ItemCompound c => [c]
  | ItemList subs => sub_compounds subs
  | ItemOther => []
  end.

(** Items of a supported type that open a molecule type of their own. *)
Definition typed_item (item : mol_item) : Prop :=
  match item with
  | ItemMolecule _ => True
  | ItemList subs => Forall (fun s => s <> SubOther) subs
  | ItemCompound _ | ItemOther => False
  end.

End Init.

Section Counting.
Context {hoomd_force : Type}.

(** The items after which [n_mol_types] is incremented. *)
Definition opens_type (item : @mol_item hoomd_force) : bool :=
  match item with
  | ItemMolecule _ | ItemList _ => true
  | ItemCompound _ | ItemOther => false
  end.

Definition type_count (items : list (@mol_item hoomd_force)) : nat :=
  length (List.filter opens_type items).

(** A list item holds compounds only. *)
Definition list_ok (item : @mol_item hoomd_force) : Prop :=
  match item with
  | ItemList subs => SubOther ∉ subs
  | _ => True
  end.

(** The HOOMD forces a [Molecule] brings. *)
Definition item_hoomd_forces (item : @mol_item hoomd_force)
  : list hoomd_force :=
  match item with
  | ItemMolecule m =>
      match force_field m with
      | HoomdFF forces => forces
      | _ => []
      end
  | _ => []
  end.

End Counting.

(** Every entry has a [gmso_ff] that is a truthy object. *)
Definition all_provide {gmso_ff : Type} (truth : gmso_ff -> bool)
    (ff : list (@ff_entry gmso_ff)) : Prop :=
  Forall (fun entry => exists g, entry = Attribute (Some g)
                                 /\ truth g = true) ff.

End Collect.

(** ** Applying the force field and rescaling the references *)

Module ApplyFF.
Local Open Scope Q_scope.

(** [np.max] of a list of quantities: the largest of the numbers. *)
Definition np_max (xs : list quantity) : result Q :=
  match xs with
  | [] => Raise (ValueError "zero-size array to reduction operation")
  | x :: xs => Ok (fold_left Qmax (map q_value xs) (q_value x))
  end.

Definition getitem {A} (l : list A) (i : nat) : result A :=
  match l !! i with
  | Some a => Ok a
  | None => Raise IndexError
  end.

(** [q.unit_array]: one, in the units of [q]. *)
Definition unit_array (q : quantity) : quantity :=
  {| q_value := 1; q_units := q_units q |}.

(** [k * q] for a float [k]. *)
Definition scale (k : Q) (q : quantity) : quantity :=
  {| q_value := k * q_value q; q_units := q_units q |}.

(** The part of the [System] object [_apply_forcefield] reads and writes. *)
Record system : Type := System {
  gmso_system : list site;
  remove_charges : bool;
  scale_charges : bool;
  auto_scale : bool;
  _reference_values : gmap string quantity
}.

Section Apply.

(** gmso's [apply], with the force fields collected by the constructor. *)
Variable apply : list site -> list site.

(** unyt's conversion: [factor u v] is one [u] expressed in [v]. *)
Variable factor : string -> string -> Q.

(** [q.to(target)] *)
Definition to (q : quantity) (target : string) : quantity :=
  {| q_value := q_value q * factor (q_units q) target; q_units := target |}.

(** [System._apply_forcefield] *)
Definition _apply_forcefield (self : system) : result system :=
  let sites := apply (gmso_system self) in
  let sites :=
    if remove_charges self
    then map (fun s => set_charge s (Some 0)) sites
    else sites in
  sites ←
    (if scale_charges self && negb (remove_charges self)
     then Charges._scale_charges sites
     else Ok sites);
  let epsilons := map epsilon sites in
  let sigmas := map sigma sites in
  let masses := map mass sites in
  energy_scale ← (if auto_scale self then np_max epsilons else Ok 1);
  length_scale ← (if auto_scale self then np_max sigmas else Ok 1);
  mass_scale ← (if auto_scale self then np_max masses else Ok 1);
  epsilon0 ← getitem epsilons 0;
  let rv := <["energy" := scale energy_scale (unit_array epsilon0)]>
              (_reference_values self) in
  sigma0 ← getitem sigmas 0;
  let rv := <["length" := scale length_scale (unit_array sigma0)]> rv in
  rv ←
    (if auto_scale self then
       mass0 ← getitem masses 0;
       Ok (<["mass" := scale mass_scale (to (unit_array mass0) "amu")]> rv)
     else
       Ok (<["mass" := {| q_value := mass_scale; q_units := "g/mol" |}]> rv));
  Ok {| gmso_system := sites;
        remove_charges := remove_charges self;
        scale_charges := scale_charges self;
        auto_scale := auto_scale self;
        _reference_values := rv |}.

End Apply.




End ApplyFF.

(** ** Lattice placement *)

Module Lattice.

Section Build.
Context {compound : Type}.

(** A unit cell holds two compounds; [cell_j] is the row it was moved to
    ([unit_cell.translate((0, y * j, 0))]). *)
Record unit_cell : Type := UnitCell {
  comp1 : compound;
  comp2 : compound;
  cell_j : nat
}.

(** A layer and the column it was moved to
    ([layer.translate((x * i, 0, 0))]). *)
Record layer : Type := Layer {
  cells : list unit_cell;
  layer_i : nat
}.

Definition getitem (l : list compound) (i : nat) : result compound :=
  match l !! i with
  | Some a => Ok a
  | None => Raise IndexError
  end.

(** The body of the [try]. *)
Definition try_body (all_molecules : list compound) (j : nat)
    (acc : list unit_cell * nat) : result (list unit_cell * nat) :=
  let '(layer, next_idx) := acc in
  comp1 ← getitem all_molecules next_idx;
  comp2 ← getitem all_molecules (next_idx + 1);
  let unit_cell := {| comp1 := comp1; comp2 := comp2; cell_j := j |} in
  Ok (layer ++ [unit_cell], next_idx + 2).

(** [try: ... except IndexError: pass] *)
Definition cell_turn (all_molecules : list compound) (j : nat)
    (acc : list unit_cell * nat) : result (list unit_cell * nat) :=
  match try_body all_molecules j acc with
  | Ok acc' => Ok acc'
  | Raise IndexError => Ok acc
  | Raise e => Raise e
  end.

(** [for j in range(self.n)] *)
Fixpoint layer_loop (all_molecules : list compound) (range : list nat)
    (acc : list unit_cell * nat) : result (list unit_cell * nat) :=
  match range with
  | [] => Ok acc
  | j :: range =>
      acc ← cell_turn all_molecules j acc;
      layer_loop all_molecules range acc
  end.

(** [for i in range(self.n)] *)
Fixpoint system_loop (all_molecules : list compound) (n : nat)
    (range : list nat) (acc : list layer * nat) : result (list layer * nat) :=
  match range with
  | [] => Ok acc
  | i :: range =>
      let '(system, next_idx) := acc in
      '(layer, next_idx) ← layer_loop all_molecules (seq 0 n) ([], next_idx);
      system_loop all_molecules n range
        (system ++ [{| cells := layer; layer_i := i |}], next_idx)
  end.

(** [Lattice._build_system], lines 487 to 506: the compound that holds the
    layers. *)
Definition _build_system (all_molecules : list compound) (n : nat)
  : result (list layer) :=
  '(system, _) ← system_loop all_molecules n (seq 0 n) ([], 0);
  Ok system.




End Build.


(** The cells of a layer hold, row after row, the molecules from position
    [x0] on, two by two. *)
Definition cells_from {compound : Type} (all_molecules : list compound)
    (x0 : nat) (layer : list (@unit_cell compound)) : Prop :=
  forall j cell, layer !! j = Some cell ->
    cell_j cell = j
    /\ all_molecules !! (x0 + 2 * j) = Some (comp1 cell)
    /\ all_molecules !! (x0 + 2 * j + 1) = Some (comp2 cell).

(** Layer [k] of a system is marked [k], has at most [n] cells and holds
    the molecules from position [2 * k * n] on. *)
Definition layers_from {compound : Type} (all_molecules : list compound)
    (n : nat) (system : list (@layer compound)) : Prop :=
  forall k l, system !! k = Some l ->
    layer_i l = k /\ length (cells l) <= n
    /\ cells_from all_molecules (2 * (k * n)) (cells l).

End Lattice.

(** ** Random packing *)

Module Pack.
Local Open Scope R_scope.

Section Build.
Context {compound : Type}.

(** The arguments [Pack._build_system] hands to [mb.packing.fill_box]. *)
Record fill_box_call : Type := FillBox {
  fb_compound : list compound;
  fb_n_compounds : list nat;
  fb_box : list R;
  fb_overlap : R;
  fb_edge : R
}.

(** [Pack._build_system] up to the call of [fill_box], which is mbuild's:
    [mass] is the value of [self.mass], [packing_expand_factor] and [edge]
    are the attributes of the same names.  [self.target_box * k] is
    entry by entry. *)
Definition _build_system (all_molecules : list compound)
    (mass density packing_expand_factor edge : R) : result fill_box_call :=
  target_box ← TargetBox.set_target_box mass density None None None;
  box ← TargetBox.imul target_box packing_expand_factor;
  Ok {| fb_compound := all_molecules;
        fb_n_compounds := map (fun _ => 1%nat) all_molecules;
        fb_box := box;
        fb_overlap := 0.2;
        fb_edge := edge |}.

End Build.
End Pack.

(** ** Sample inputs *)

Module Samples.

Definition two_sites : list site :=
  [ {| charge := Some (3 # 1); mass := Quantity 12 "amu";
       epsilon := Quantity 1 "kJ/mol"; sigma := Quantity 1 "nm" |};
    {| charge := Some (-1 # 1); mass := Quantity 1 "amu";
       epsilon := Quantity (1 # 2) "kJ/mol"; sigma := Quantity (1 # 2) "nm" |} ].

(** Force fields named by strings; the empty name is the falsy one. *)
Definition ff_truth (g : string) : bool := negb (String.eqb g "").
Definition load_xml (xml : string) : string := xml.

(** A molecule of two compounds, without a force field of its own. *)
Definition plain_molecule : @Collect.Molecule string :=
  {| Collect.molecules := [0; 1]; Collect.force_field := Collect.NoFF |}.

(** An [apply] that returns the sites as they are. *)
Definition apply_nothing (sites : list site) : list site := sites.

(** Unit conversion between amu and g/mol, which are the same. *)
Definition unit_factor (u v : string) : Q := 1.

(** A system whose charges are to be scaled and whose references are to
    be set from the sites. *)
Definition auto_system : ApplyFF.system :=
  {| ApplyFF.gmso_system := two_sites;
     ApplyFF.remove_charges := false;
     ApplyFF.scale_charges := true;
     ApplyFF.auto_scale := true;
     ApplyFF._reference_values := ∅ |}.

(** A chain C-H-H-C: each hydrogen is bonded to a carbon, and the second
    hydrogen has the first one as its first bond partner. *)
Definition chain : list Hydrogens.atom :=
  [ Hydrogens.Atom 6 12 0 [1];
    Hydrogens.Atom 1 1 (1 # 10) [0; 2];
    Hydrogens.Atom 1 1 (1 # 10) [1; 3];
    Hydrogens.Atom 6 12 0 [2] ].

(** Methane: a carbon and its four hydrogens. *)
Definition methane : list Hydrogens.atom :=
  [ Hydrogens.Atom 6 12 (-4 # 10) [1; 2; 3; 4];
    Hydrogens.Atom 1 1 (1 # 10) [0];
    Hydrogens.Atom 1 1 (1 # 10) [0];
    Hydrogens.Atom 1 1 (1 # 10) [0];
    Hydrogens.Atom 1 1 (1 # 10) [0] ].

(** A molecule of one compound that brings two HOOMD forces. *)
Definition hoomd_molecule : @Collect.Molecule string :=
  {| Collect.molecules := [3];
     Collect.force_field := Collect.HoomdFF ["lj"; "bond"] |}.

(** A bare compound, two molecules, an integer and a list. *)
Definition mixed_items : list (@Collect.mol_item string) :=
  [ Collect.ItemCompound 5;
    Collect.ItemMolecule plain_molecule;
    Collect.ItemOther;
    Collect.ItemMolecule hoomd_molecule;
    Collect.ItemList [Collect.SubCompound 2] ].

(** Two molecule types collected, the first with a force field of its
    own. *)
Definition two_types : @Collect.state string string :=
  {| Collect.names := ∅;
     Collect.all_molecules := [0; 1];
     Collect._hoomd_forcefield := [];
     Collect._gmso_forcefields_dict := {["0" := "own"]};
     Collect.n_mol_types := 2 |}.



(** [auto_system] with the charges to be removed as well. *)
Definition uncharged_system : ApplyFF.system :=
  {| ApplyFF.gmso_system := two_sites;
     ApplyFF.remove_charges := true;
     ApplyFF.scale_charges := true;
     ApplyFF.auto_scale := false;
     ApplyFF._reference_values := ∅ |}.

(** A system whose topology has no site. *)
Definition empty_system : ApplyFF.system :=
  {| ApplyFF.gmso_system := [];
     ApplyFF.remove_charges := false;
     ApplyFF.scale_charges := true;
     ApplyFF.auto_scale := true;
     ApplyFF._reference_values := ∅ |}.

(** A carbon and a hydrogen that is bonded to nothing. *)
Definition lone_hydrogen : list Hydrogens.atom :=
  [ Hydrogens.Atom 6 12 0 []; Hydrogens.Atom 1 1 0 [] ].

(** A hydrogen molecule next to a carbon. *)
Definition hydrogen_molecule : list Hydrogens.atom :=
  [ Hydrogens.Atom 6 12 0 [];
    Hydrogens.Atom 1 1 0 [2];
    Hydrogens.Atom 1 1 0 [1] ].

(** Carbon dioxide: no hydrogen, by element or by mass. *)
Definition carbon_dioxide : list Hydrogens.atom :=
  [ Hydrogens.Atom 6 12 (8 # 10) [1; 2];
    Hydrogens.Atom 8 16 (-4 # 10) [0];
    Hydrogens.Atom 8 16 (-4 # 10) [0] ].

End Samples.

(** * Properties *)

(** ** Sums *)

Lemma fold_left_Qplus_acc (xs : list Q) (a : Q) :
  (fold_left Qplus xs a == a + py_sum xs)%Q.
Proof.
  unfold py_sum. revert a.
  induction xs as [|x xs IH]; intros a; simpl.
  - ring.
  - rewrite (IH (a + x)%Q), (IH (0 + x)%Q). ring.
Qed.

Lemma py_sum_nil : py_sum [] = 0%Q.
Proof. reflexivity. Qed.

Lemma py_sum_cons (x : Q) (xs : list Q) :
  (py_sum (x :: xs) == x + py_sum xs)%Q.
Proof.
  unfold py_sum at 1. simpl. rewrite fold_left_Qplus_acc. ring.
Qed.

Lemma py_sum_app (xs ys : list Q) :
  (py_sum (xs ++ ys) == py_sum xs + py_sum ys)%Q.
Proof.
  induction xs as [|x xs IH]; simpl.
  - rewrite py_sum_nil. ring.
  - rewrite !py_sum_cons, IH. ring.
Qed.

(** ** Charge scaling *)

Section ChargeFacts.
Import Charges Samples.
Local Open Scope Q_scope.

Lemma charge_or_zero_eq (s : site) (q : Q) :
  charge s = Some q -> charge_or_zero s == q.
Proof.
  intros H. unfold charge_or_zero. rewrite H.
  destruct (Qeq_bool q 0) eqn:E; [|reflexivity].
  apply Qeq_bool_iff in E. now rewrite E.
Qed.

Lemma scale_loop_ok (ratio : Q) (sites : list site) :
  Forall (fun s => charge s <> None) sites ->
  exists sites', scale_loop ratio sites = Ok sites'
                 /\ Forall2 (rescaled ratio) sites sites'.
Proof.
  induction 1 as [|s sites Hs _ [sites' [IH1 IH2]]]; simpl.
  - exists []. split; [reflexivity|constructor].
  - destruct (charge s) as [q|] eqn:Hq; [|congruence].
    unfold isub_charge. rewrite Hq. simpl. rewrite IH1. simpl.
    eexists. split; [reflexivity|]. constructor; [|assumption].
    exists q, (q - Qabs (charge_or_zero s) * ratio). simpl.
    repeat split; try assumption.
    now rewrite (charge_or_zero_eq s q Hq).
Qed.

Lemma rescaled_sum (ratio : Q) (sites sites' : list site) :
  Forall2 (rescaled ratio) sites sites' ->
  net_charge sites' == net_charge sites - ratio * abs_sum sites.
Proof.
  unfold net_charge, abs_sum.
  induction 1 as [|s s' sites sites' (q & q' & H1 & H2 & H3) _ IH]; simpl.
  - rewrite py_sum_nil. ring.
  - rewrite !py_sum_cons, IH.
    rewrite (charge_or_zero_eq s q H1), (charge_or_zero_eq s' q' H2), H3.
    ring.
Qed.

(** C1: when every site has a charge and the absolute charges do not sum
    to zero, [_scale_charges] replaces each charge [q] by
    [q - |q| * (net_charge / total_absolute_charge)], and the net charge of
    the result is zero. *)
Theorem scale_charges_neutral (sites : list site) :
  Forall (fun s => charge s <> None) sites ->
  ~ abs_sum sites == 0 ->
  exists sites',
    _scale_charges sites = Ok sites'
    /\ Forall2 (rescaled (net_charge sites / abs_sum sites)) sites sites'
    /\ net_charge sites' == 0.
Proof.
  intros Hall Habs.
  destruct (scale_loop_ok (net_charge sites / abs_sum sites) sites Hall)
    as (sites' & Hrun & Hrel).
  exists sites'. split; [|split; [assumption|]].
  - unfold _scale_charges. fold (abs_sum sites). fold (net_charge sites).
    destruct (Qeq_bool (abs_sum sites) 0) eqn:E; simpl; [|assumption].
    apply Qeq_bool_iff in E. contradiction.
  - rewrite (rescaled_sum _ _ _ Hrel). field. assumption.
Qed.

Lemma scale_charges_neutral_witness :
  exists sites',
    _scale_charges two_sites = Ok sites'
    /\ Forall2 (rescaled (net_charge two_sites / abs_sum two_sites))
         two_sites sites'
    /\ net_charge sites' == 0.
Proof.
  apply (scale_charges_neutral two_sites).
  - repeat constructor; discriminate.
  - vm_compute. discriminate.
Defined.

(** A site without a charge stops [_scale_charges] with a [TypeError]. *)
Lemma scale_charges_none :
  _scale_charges
    [ {| charge := Some 1; mass := Quantity 12 "amu";
         epsilon := Quantity 1 "kJ/mol"; sigma := Quantity 1 "nm" |};
      {| charge := None; mass := Quantity 1 "amu";
         epsilon := Quantity 1 "kJ/mol"; sigma := Quantity 1 "nm" |} ]
  = Raise TypeError.
Proof. reflexivity. Qed.

End ChargeFacts.

(** ** Target box *)

Section TargetBoxFacts.
Import TargetBox.
Local Open Scope R_scope.

Lemma grams_pos (mass : R) : 0 < mass -> 0 < grams mass.
Proof. unfold grams. intros H. apply Rmult_lt_0_compat; lra. Qed.

Lemma py_div_pos (x y : R) : 0 < y -> py_div x y = Ok (x / y).
Proof.
  intros Hy. unfold py_div. destruct (Req_dec_T y 0); [lra|reflexivity].
Qed.

Lemma py_pow_pos (x y : R) : 0 < x -> py_pow x y = Ok (Rpower x y).
Proof.
  intros Hx. unfold py_pow. destruct (Rlt_dec 0 x); [reflexivity|contradiction].
Qed.

Lemma truthy_pos (x : R) : 0 < x -> truthy (Some x) = true.
Proof.
  intros Hx. unfold truthy. destruct (Req_dec_T x 0); [lra|reflexivity].
Qed.

(** The cube of the cube root. *)
Lemma cube_root_cubed (v : R) :
  0 < v -> Rpower v (1 / 3) * Rpower v (1 / 3) * Rpower v (1 / 3) = v.
Proof.
  intros Hv.
  assert (Hp : 0 < Rpower v (1 / 3)) by (unfold Rpower; apply exp_pos).
  replace (Rpower v (1 / 3) * Rpower v (1 / 3) * Rpower v (1 / 3))
    with (Rpower v (1 / 3) ^ 3) by (simpl; ring).
  rewrite <- (Rpower_pow 3 _ Hp), Rpower_mult.
  replace (1 / 3 * INR 3) with 1 by (simpl; field).
  apply Rpower_1, Hv.
Qed.

(** C3: with no constraint, a system of positive mass and density gets a
    cubic target box of side [(mass / density)^(1/3)], brought from cm to
    nm, whose volume in cm^3 times the density is the mass in grams. *)
Theorem set_target_box_cubic (mass density : R) :
  0 < mass -> 0 < density ->
  exists L,
    set_target_box mass density None None None = Ok [Some L; Some L; Some L]
    /\ L = Rpower (grams mass / density) (1 / 3) * 1e7
    /\ volume_cm3 L L L * density = grams mass.
Proof.
  intros Hm Hd.
  pose proof (grams_pos mass Hm) as Hg.
  assert (Hv : 0 < grams mass / density) by (apply Rdiv_lt_0_compat; assumption).
  exists (Rpower (grams mass / density) (1 / 3) * 1e7).
  split; [|split; [reflexivity|]].
  - unfold set_target_box, _calculate_L. simpl.
    fold (grams mass). rewrite (py_div_pos _ _ Hd). simpl.
    rewrite (py_pow_pos _ _ Hv). reflexivity.
  - unfold volume_cm3.
    set (P := Rpower (grams mass / density) (1 / 3)).
    replace (P * 1e7 * 1e-7) with P by lra.
    unfold P. rewrite (cube_root_cubed _ Hv). field. lra.
Qed.

Lemma set_target_box_cubic_witness :
  exists L,
    set_target_box 1000 1 None None None = Ok [Some L; Some L; Some L]
    /\ L = Rpower (grams 1000 / 1) (1 / 3) * 1e7
    /\ volume_cm3 L L L * 1 = grams 1000.
Proof. apply (set_target_box_cubic 1000 1); lra. Defined.

(** With a positive [x_constraint], the three constraints come back as
    they were given: the length solved for is written nowhere. *)
Lemma set_target_box_keeps_constraints (mass density x : R)
    (y_constraint z_constraint : option R) :
  0 < mass -> 0 < density -> 0 < x ->
  set_target_box mass density (Some x) y_constraint z_constraint
  = Ok [Some x; y_constraint; z_constraint].
Proof.
  intros Hm Hd Hx.
  pose proof (grams_pos mass Hm) as Hg.
  assert (Hv : 0 < grams mass / density) by (apply Rdiv_lt_0_compat; assumption).
  assert (Hf : 0 < x * 1e-7 * 1) by lra.
  unfold set_target_box. cbn [existsb]. rewrite (truthy_pos x Hx).
  cbn -[Rmult Rdiv Rpower IZR Rinv]. unfold _calculate_L.
  fold (grams mass). rewrite (py_div_pos _ _ Hd).
  cbn -[Rmult Rdiv Rpower IZR Rinv].
  rewrite (py_div_pos _ _ Hf). cbn -[Rmult Rdiv Rpower IZR Rinv].
  rewrite py_pow_pos; [reflexivity|].
  apply Rdiv_lt_0_compat; assumption.
Qed.

(** C4, at [x_constraint = 2], [y_constraint = 3]: the z length of the
    target box stays [None]. *)
Theorem set_target_box_xy_leaves_z_unset :
  set_target_box 1000 1 (Some 2) (Some 3) None = Ok [Some 2; Some 3; None].
Proof. apply set_target_box_keeps_constraints; lra. Qed.

(** X9: with no [x_constraint] and another constraint set, scaling the
    fixed lengths meets [None] and [set_target_box] raises [TypeError]. *)
Lemma set_target_box_no_x (mass density : R)
    (y_constraint z_constraint : option R) :
  truthy y_constraint || truthy z_constraint = true ->
  set_target_box mass density None y_constraint z_constraint
  = Raise TypeError.
Proof.
  intros H. unfold set_target_box. cbn [existsb truthy].
  rewrite orb_false_r in *. cbn [orb]. rewrite H. reflexivity.
Qed.

(** X11: what the two-constraint branch of [_calculate_L] solves: the
    length that completes the volume. *)
Lemma calculate_L_two_fixed (mass density x y : R) :
  0 < mass -> 0 < density -> 0 < x -> 0 < y ->
  exists L,
    _calculate_L mass density (Some [x * 1e-7; y * 1e-7]) = Ok L
    /\ volume_cm3 x y L * density = grams mass.
Proof.
  intros Hm Hd Hx Hy.
  assert (Hf : 0 < x * 1e-7 * (y * 1e-7 * 1)).
  { apply Rmult_lt_0_compat; lra. }
  exists (grams mass / density / (x * 1e-7 * (y * 1e-7 * 1)) * 1e7). split.
  - unfold _calculate_L. fold (grams mass).
    rewrite (py_div_pos _ _ Hd). cbn -[Rmult Rdiv Rpower IZR Rinv].
    rewrite (py_div_pos _ _ Hf). reflexivity.
  - unfold volume_cm3. field. lra.
Qed.

End TargetBoxFacts.

(** ** Reference values *)

Section RefValueFacts.
Import RefValues.
Context {raw validated : Type}.
Variable validate_ref_value : raw -> dimension -> result validated.

(** C5, as the code has it: when [k] is the first missing key (in the
    order length, mass, energy) and the values of the keys before it pass
    validation, the setter raises [ValueError] for [k]; by then the
    references of the keys before [k] hold their validated values, and
    every other reference, those of [k] and of the later keys among them,
    is as it was. *)
Theorem set_reference_values_missing
    (rv : gmap string validated) (d : gmap string raw)
    (pre post : list string) (k : string) :
  ref_keys = pre ++ k :: post ->
  d !! k = None ->
  Forall (fun j => exists v v',
            d !! j = Some v
            /\ validate_ref_value v (dimension_of j) = Ok v') pre ->
  exists rv',
    set_reference_values validate_ref_value rv d
    = (rv', Raise (ValueError ("Missing reference for " +:+ k +:+ ".")))
    /\ (forall j, j ∉ pre -> rv' !! j = rv !! j)
    /\ (forall j, j ∈ k :: post -> rv' !! j = rv !! j)
    /\ (forall j v, j ∈ pre -> d !! j = Some v ->
          exists v', validate_ref_value v (dimension_of j) = Ok v'
                     /\ rv' !! j = Some v').
Proof.
  unfold ref_keys, set_reference_values. intros Hk Hd Hpre.
  assert (Hdl : dimension_of "length" = dim_length) by reflexivity.
  assert (Hdm : dimension_of "mass" = dim_mass) by reflexivity.
  destruct pre as [|a [|b [|c pre]]]; simplify_eq/=.
  - exists rv. rewrite Hd. split_and!; [done|done|done|].
    intros j v Hj. by apply elem_of_nil in Hj.
  - apply Forall_singleton in Hpre as (l & l' & Hl & Hv).
    rewrite Hdl in Hv.
    exists (<["length" := l']> rv). rewrite Hl.
    unfold setattr, set_reference_length. simpl. rewrite Hv, Hd.
    split_and!; [done| | |].
    + intros j Hj. apply lookup_insert_ne. intros <-. set_unfold. naive_solver.
    + intros j Hj. apply lookup_insert_ne. intros <-. set_unfold. naive_solver.
    + intros j v Hj Hjv. apply list_elem_of_singleton in Hj as ->.
      exists l'. rewrite Hdl, lookup_insert_eq. by simplify_eq.
  - apply Forall_cons in Hpre as [(l & l' & Hl & Hv) Hpre].
    apply Forall_singleton in Hpre as (m & m' & Hm & Hw).
    rewrite Hdl in Hv. rewrite Hdm in Hw.
    exists (<["mass" := m']> (<["length" := l']> rv)). rewrite Hl.
    unfold setattr, set_reference_length, set_reference_mass. simpl.
    rewrite Hv, Hm. simpl. rewrite Hw, Hd.
    split_and!; [done| | |].
    + intros j Hj. rewrite !lookup_insert_ne; [done|intros <-; set_unfold; naive_solver..].
    + intros j Hj. rewrite !lookup_insert_ne; [done|intros <-; set_unfold; naive_solver..].
    + intros j v Hj Hjv.
      apply elem_of_cons in Hj as [->|Hj].
      * exists l'. rewrite Hdl, lookup_insert_ne, lookup_insert_eq by done.
        by simplify_eq.
      * apply list_elem_of_singleton in Hj as ->.
        exists m'. rewrite Hdm, lookup_insert_eq. by simplify_eq.
  - destruct pre; discriminate.
Qed.

End RefValueFacts.

Section RefValueSamples.
Import RefValues.

Lemma set_reference_values_missing_witness :
  exists rv',
    set_reference_values accept_all (∅ : gmap string nat)
      {["length" := 5; "mass" := 7]}
    = (rv', Raise (ValueError ("Missing reference for " +:+ "energy" +:+ ".")))
    /\ (forall j, j ∉ ["length"; "mass"] -> rv' !! j = (∅ : gmap string nat) !! j)
    /\ (forall j, j ∈ ["energy"] -> rv' !! j = (∅ : gmap string nat) !! j)
    /\ (forall j v, j ∈ ["length"; "mass"] ->
          ({["length" := 5; "mass" := 7]} : gmap string nat) !! j = Some v ->
          exists v', accept_all v (dimension_of j) = Ok v'
                     /\ rv' !! j = Some v').
Proof.
  apply (set_reference_values_missing accept_all ∅
           {["length" := 5; "mass" := 7]} ["length"; "mass"] [] "energy").
  - reflexivity.
  - reflexivity.
  - repeat constructor.
    + exists 5, 5. split; reflexivity.
    + exists 7, 7. split; reflexivity.
Defined.

(** With the three keys present the three references are stored. *)
Lemma set_reference_values_complete :
  set_reference_values accept_all (∅ : gmap string nat)
    {["length" := 5; "mass" := 7; "energy" := 9]}
  = (<["energy" := 9]> (<["mass" := 7]> (<["length" := 5]> ∅)), Ok ()).
Proof. reflexivity. Qed.

(** C5 as stated fails: a dictionary with only [length] raises the
    [ValueError] for [mass] after the reference length has been stored. *)
Lemma set_reference_values_partial_update :
  set_reference_values accept_all (∅ : gmap string nat) {["length" := 5]}
  = (<["length" := 5]> ∅, Raise (ValueError "Missing reference for mass."))
  /\ (<["length" := 5]> ∅ : gmap string nat) <> ∅.
Proof.
  split; [reflexivity|].
  intros H. apply (f_equal (fun m => m !! "length")) in H.
  rewrite lookup_insert_eq, lookup_empty in H. discriminate.
Qed.

End RefValueSamples.

(** ** Collecting molecules *)

Section CollectFacts.
Import Collect.
Context {hoomd_force gmso_ff : Type}.
Variable truth : gmso_ff -> bool.
Variable xml_to_gmso_ff : string -> gmso_ff.

#[local] Abbreviation state := (@state hoomd_force gmso_ff).
#[local] Abbreviation mol_item := (@mol_item hoomd_force).
#[local] Abbreviation collect := (@collect hoomd_force gmso_ff xml_to_gmso_ff).
#[local] Abbreviation collect_item := (@collect_item hoomd_force gmso_ff xml_to_gmso_ff).

Lemma assign_mol_name_notin (cs : list nat) (name : string)
    (nm : gmap nat string) (c : nat) :
  c ∉ cs -> assign_mol_name cs name nm !! c = nm !! c.
Proof.
  unfold assign_mol_name. revert nm.
  induction cs as [|a cs IH]; intros nm Hc; simpl; [done|].
  apply not_elem_of_cons in Hc as [Hne Hc].
  rewrite IH by done. by apply lookup_insert_ne.
Qed.

Lemma assign_mol_name_in (cs : list nat) (name : string)
    (nm : gmap nat string) (c : nat) :
  c ∈ cs -> assign_mol_name cs name nm !! c = Some name.
Proof.
  unfold assign_mol_name. revert nm.
  induction cs as [|a cs IH]; intros nm Hc; simpl.
  - by apply elem_of_nil in Hc.
  - destruct (decide (c ∈ cs)) as [Hin|Hout]; [by apply IH|].
    apply elem_of_cons in Hc as [->|Hc]; [|done].
    fold (assign_mol_name cs name (<[a := name]> nm)).
    rewrite assign_mol_name_notin by done. apply lookup_insert_eq.
Qed.

Lemma assign_mol_name_snoc (cs : list nat) (c : nat) (name : string)
    (nm : gmap nat string) :
  assign_mol_name (cs ++ [c]) name nm
  = <[c := name]> (assign_mol_name cs name nm).
Proof. unfold assign_mol_name. by rewrite foldl_app. Qed.

(** A list of compounds is collected under the current type index. *)
Lemma collect_subs_compounds (subs : list sub_item) (st : state) :
  Forall (fun s => s <> SubOther) subs ->
  exists st',
    collect_subs subs st = Ok st'
    /\ n_mol_types st' = n_mol_types st
    /\ all_molecules st' = all_molecules st ++ sub_compounds subs
    /\ names st'
       = assign_mol_name (sub_compounds subs) (py_str (n_mol_types st))
           (names st)
    /\ _gmso_forcefields_dict st' = _gmso_forcefields_dict st.
Proof.
  intros Hall. revert st.
  induction Hall as [|s subs Hs _ IH]; intros st.
  - exists st. simpl. by rewrite app_nil_r.
  - destruct s as [c|]; [|done]. simpl.
    edestruct IH as (st' & -> & Hn & Hm & Hnm & Hd).
    exists st'. simpl in *. rewrite Hn, Hm, Hnm, Hd, <- app_assoc. done.
Qed.

(** A list holding anything but a compound raises [MoleculeLoadError]. *)
Lemma collect_subs_other (subs : list sub_item) (st : state) :
  SubOther ∈ subs -> collect_subs subs st = Raise MoleculeLoadError.
Proof.
  revert st. induction subs as [|s subs IH]; intros st Hin.
  - by apply elem_of_nil in Hin.
  - destruct s as [c|]; [|done]. simpl. apply IH.
    by apply elem_of_cons in Hin as [?|?].
Qed.

(** An item of a type the constructor does not know is passed over. *)
Lemma collect_unsupported_item (st : state) (before after : list mol_item) :
  collect st (before ++ ItemOther :: after) = collect st (before ++ after).
Proof.
  revert st. induction before as [|item before IH]; intros st; simpl; [done|].
  destruct (collect_item st item); simpl; [apply IH|done].
Qed.

Lemma collect_item_typed (st : state) (item : mol_item) :
  typed_item item ->
  exists st',
    collect_item st item = Ok st'
    /\ n_mol_types st' = n_mol_types st + 1
    /\ all_molecules st' = all_molecules st ++ item_compounds item
    /\ names st'
       = assign_mol_name (item_compounds item) (py_str (n_mol_types st))
           (names st).
Proof.
  destruct item as [m|c|subs|]; simpl; intros Ht; try done.
  - eexists. split; [reflexivity|]. simpl. done.
  - destruct (collect_subs_compounds subs st Ht)
      as (st' & -> & Hn & Hm & Hnm & _).
    eexists. split; [reflexivity|]. simpl. by rewrite Hn, Hm, Hnm.
Qed.

Lemma collect_typed (items : list mol_item) (st : state) :
  Forall typed_item items ->
  exists st',
    collect st items = Ok st'
    /\ n_mol_types st' = n_mol_types st + length items
    /\ all_molecules st'
       = all_molecules st ++ concat (map item_compounds items)
    /\ (forall c,
          (forall item, item ∈ items -> c ∉ item_compounds item) ->
          names st' !! c = names st !! c)
    /\ (forall i item c,
          items !! i = Some item -> c ∈ item_compounds item ->
          (forall j item', i < j -> items !! j = Some item' ->
                           c ∉ item_compounds item') ->
          names st' !! c = Some (py_str (n_mol_types st + i))).
Proof.
  intros Hall. revert st.
  induction Hall as [|item items Hitem _ IH]; intros st.
  - exists st. simpl. rewrite app_nil_r, Nat.add_0_r.
    split_and!; try done; intros i item c Hi; by rewrite lookup_nil in Hi.
  - destruct (collect_item_typed st item Hitem) as (st1 & H1 & Hn1 & Hm1 & Hnm1).
    destruct (IH st1) as (st' & H2 & Hn2 & Hm2 & Hkeep & Hname).
    exists st'. simpl. rewrite H1. simpl.
    split_and!; [done|lia| | |].
    + by rewrite Hm2, Hm1, <- app_assoc.
    + intros c Hc. rewrite Hkeep, Hnm1.
      * apply assign_mol_name_notin, Hc, list_elem_of_here.
      * intros it Hit. by apply Hc, list_elem_of_further.
    + intros [|i] it c Hi Hc Hlater; simpl in Hi.
      * simplify_eq. rewrite Hkeep, Hnm1, Nat.add_0_r.
        -- by apply assign_mol_name_in.
        -- intros it' Hit'. apply list_elem_of_lookup in Hit' as [j Hj].
           apply (Hlater (S j)); [lia|done].
      * rewrite (Hname i it c Hi Hc).
        -- f_equal. f_equal. lia.
        -- intros j it' Hij Hj. apply (Hlater (S j)); [lia|done].
Qed.

(** When every item of [molecules] is a [Molecule] or a list of
    compounds, [n_mol_types] ends as the number of items, the compounds of
    the item at position [i] carry the name [str(i)] (unless a later item
    holds the same compound object and renames it), and so compounds of
    items at different positions carry different names. *)
Theorem collect_type_indices (names0 : gmap nat string)
    (items : list mol_item) :
  Forall typed_item items ->
  exists st,
    collect (init_state names0) items = Ok st
    /\ n_mol_types st = length items
    /\ all_molecules st = concat (map item_compounds items)
    /\ (forall i item c,
          items !! i = Some item -> c ∈ item_compounds item ->
          (forall j item', i < j -> items !! j = Some item' ->
                           c ∉ item_compounds item') ->
          names st !! c = Some (py_str i))
    /\ (forall i j item_i item_j c d,
          i < j ->
          items !! i = Some item_i -> c ∈ item_compounds item_i ->
          items !! j = Some item_j -> d ∈ item_compounds item_j ->
          (forall k item', i < k -> items !! k = Some item' ->
                           c ∉ item_compounds item') ->
          (forall k item', j < k -> items !! k = Some item' ->
                           d ∉ item_compounds item') ->
          names st !! c <> names st !! d).
Proof.
  intros Hall.
  destruct (collect_typed items (init_state names0) Hall)
    as (st & Hrun & Hn & Hm & _ & Hname).
  simpl in *. exists st. split_and!; try done.
  intros i j item_i item_j c d Hij Hi Hc Hj Hd Hci Hdj.
  rewrite (Hname i item_i c Hi Hc Hci), (Hname j item_j d Hj Hd Hdj).
  intros Heq. apply (inj Some) in Heq. unfold py_str in Heq.
  apply (inj pretty) in Heq. lia.
Qed.

End CollectFacts.

Section CollectSamples.
Import Collect Samples.

Lemma collect_type_indices_witness :
  exists st,
    collect load_xml (init_state ∅)
      [ItemMolecule plain_molecule; ItemList [SubCompound 2]] = Ok st
    /\ n_mol_types st = 2
    /\ all_molecules st = [0; 1; 2]
    /\ (forall i item c,
          [ItemMolecule plain_molecule; ItemList [SubCompound 2]] !! i
          = Some item ->
          c ∈ item_compounds item ->
          (forall j item', i < j ->
             [ItemMolecule plain_molecule; ItemList [SubCompound 2]] !! j
             = Some item' ->
             c ∉ item_compounds item') ->
          names st !! c = Some (py_str i))
    /\ (forall i j item_i item_j c d,
          i < j ->
          [ItemMolecule plain_molecule; ItemList [SubCompound 2]] !! i
          = Some item_i ->
          c ∈ item_compounds item_i ->
          [ItemMolecule plain_molecule; ItemList [SubCompound 2]] !! j
          = Some item_j ->
          d ∈ item_compounds item_j ->
          (forall k item', i < k ->
             [ItemMolecule plain_molecule; ItemList [SubCompound 2]] !! k
             = Some item' ->
             c ∉ item_compounds item') ->
          (forall k item', j < k ->
             [ItemMolecule plain_molecule; ItemList [SubCompound 2]] !! k
             = Some item' ->
             d ∉ item_compounds item') ->
          names st !! c <> names st !! d).
Proof.
  apply (collect_type_indices load_xml ∅
           [ItemMolecule plain_molecule; ItemList [SubCompound 2]]).
  repeat constructor. discriminate.
Defined.

(** C9, at [molecules = [compound, compound]]: the branch of a bare
    compound names it [str(n_mol_types)] as the other two branches do and
    leaves out their increment, so [n_mol_types] stays at zero, not at the
    number of items, and both compounds get the name ["0"]. *)
Lemma collect_bare_compounds_share_index :
  exists st,
    @collect string string load_xml (init_state ∅)
      [ItemCompound 0; ItemCompound 1] = Ok st
    /\ n_mol_types st = 0
    /\ n_mol_types st <> length [@ItemCompound string 0; ItemCompound 1]
    /\ names st !! 0 = Some "0"
    /\ names st !! 1 = Some "0".
Proof.
  eexists. split; [reflexivity|]. simpl. split_and!; try done.
Qed.

(** With [n_mol_types] left at zero the loop over [range(n_mol_types)]
    has no turn: two bare compounds get no force field from the
    [force_field] argument, where two one-compound lists get one each. *)
Lemma init_bare_compounds_without_force_field :
  (exists st,
     @init string string ff_truth load_xml ∅
       [ItemCompound 0; ItemCompound 1] (Some [Attribute (Some "opls")])
     = Ok st
     /\ _gmso_forcefields_dict st = ∅)
  /\ (exists st,
        @init string string ff_truth load_xml ∅
          [ItemList [SubCompound 0]; ItemList [SubCompound 1]]
          (Some [Attribute (Some "opls")])
        = Ok st
        /\ n_mol_types st = 2
        /\ _gmso_forcefields_dict st !! "0" = Some "opls"
        /\ _gmso_forcefields_dict st !! "1" = Some "opls").
Proof.
  split; eexists; (split; [reflexivity|]); [reflexivity|].
  split_and!; reflexivity.
Qed.

(** C6, at [molecules = [Molecule, 5]]: the second item is of no supported
    type, and the collection ends without [MoleculeLoadError], in the state
    the molecule alone gives. *)
Theorem collect_skips_unsupported_item :
  collect load_xml (init_state ∅) [ItemMolecule plain_molecule; ItemOther]
  = Ok {| names := <[1 := "0"]> (<[0 := "0"]> ∅);
          all_molecules := [0; 1];
          _hoomd_forcefield := [];
          _gmso_forcefields_dict := ∅;
          n_mol_types := 1 |}.
Proof. reflexivity. Qed.

(** The same through the constructor, with or without a force field. *)
Lemma init_skips_unsupported_item :
  init ff_truth load_xml ∅ [ItemMolecule plain_molecule; ItemOther] None
  = init ff_truth load_xml ∅ [ItemMolecule plain_molecule] None
  /\ init ff_truth load_xml ∅ [ItemMolecule plain_molecule; ItemOther]
       (Some [Attribute (Some "opls")])
     = init ff_truth load_xml ∅ [ItemMolecule plain_molecule]
         (Some [Attribute (Some "opls")]).
Proof. split; reflexivity. Qed.

(** The sibling path: inside a list the same value raises. *)
Lemma collect_list_with_unsupported_item :
  @collect string string load_xml (init_state ∅)
    [ItemList [SubCompound 0; SubOther]]
  = Raise MoleculeLoadError.
Proof. reflexivity. Qed.

(** C7, at a force-field entry that has no [gmso_ff] attribute: the
    constructor stops with [AttributeError], not [ForceFieldError]. *)
Theorem init_entry_without_gmso_ff :
  @init string string ff_truth load_xml ∅ [ItemList [SubCompound 0]]
    (Some [NoAttribute])
  = Raise AttributeError.
Proof. reflexivity. Qed.

(** An entry whose [gmso_ff] is [None] or empty does raise
    [ForceFieldError]. *)
Lemma init_entry_with_empty_gmso_ff :
  @init string string ff_truth load_xml ∅ [ItemList [SubCompound 0]]
    (Some [Attribute None])
  = Raise ForceFieldError
  /\ @init string string ff_truth load_xml ∅ [ItemList [SubCompound 0]]
       (Some [Attribute (Some "")])
     = Raise ForceFieldError.
Proof. split; reflexivity. Qed.

(** One force field for two molecule types: both get the entry at 0. *)
Lemma init_one_ff_for_all :
  exists st,
    @init string string ff_truth load_xml ∅
      [ItemList [SubCompound 0]; ItemList [SubCompound 1]]
      (Some [Attribute (Some "opls")]) = Ok st
    /\ _gmso_forcefields_dict st !! "0" = Some "opls"
    /\ _gmso_forcefields_dict st !! "1" = Some "opls".
Proof. eexists. split; [reflexivity|]. split; reflexivity. Qed.

End CollectSamples.

(** ** Collecting force fields *)

Section ForceFieldFacts.
Import Collect.
Context {hoomd_force gmso_ff : Type}.
Variable truth : gmso_ff -> bool.

#[local] Abbreviation fstate := (@state hoomd_force gmso_ff).
#[local] Abbreviation step := (@forcefield_step hoomd_force gmso_ff truth).
#[local] Abbreviation loop := (@forcefield_loop hoomd_force gmso_ff truth).

(** Beyond the list the entry at 0 is taken. *)
Lemma ff_index_beyond (i len : nat) : len <= i -> ff_index i len = 0.
Proof.
  intros H. unfold ff_index. destruct (i <? len) eqn:E; [|done].
  apply Nat.ltb_lt in E. lia.
Qed.

Lemma ff_index_within (i len : nat) : i < len -> ff_index i len = i.
Proof.
  intros H. unfold ff_index. destruct (i <? len) eqn:E; [done|].
  apply Nat.ltb_ge in E. lia.
Qed.

Lemma ff_index_lt (i len : nat) : 0 < len -> ff_index i len < len.
Proof. intros H. unfold ff_index. destruct (i <? len) eqn:E; [by apply Nat.ltb_lt|done]. Qed.

(** A turn writes the key of its own index only. *)
Lemma forcefield_step_ok (ff : list ff_entry) (st st' : fstate) (i : nat)
    (k : string) :
  step ff st i = Ok st' -> k <> py_str i ->
  _gmso_forcefields_dict st' !! k = _gmso_forcefields_dict st !! k.
Proof.
  unfold forcefield_step. intros H Hk.
  destruct (negb _); [|by simplify_eq].
  destruct (getitem _ _) as [entry|]; simpl in H; [|done].
  destruct (getattr_gmso_ff entry) as [[g|]|]; simpl in H; try done.
  destruct (truth g); [|done]. simplify_eq. simpl.
  by apply lookup_insert_ne.
Qed.

(** When every entry has the attribute, a turn can only fail with
    [ForceFieldError]. *)
Lemma forcefield_step_raise (ff : list ff_entry) (st : fstate) (i : nat)
    (e : exn) :
  0 < length ff -> Forall (fun entry => entry <> NoAttribute) ff ->
  step ff st i = Raise e -> e = ForceFieldError.
Proof.
  unfold forcefield_step, getitem. intros Hlen Hattr H.
  destruct (negb _); [|done].
  destruct (lookup_lt_is_Some_2 ff _ (ff_index_lt i _ Hlen)) as [entry Hentry].
  rewrite Hentry in H. simpl in H.
  destruct entry as [|v].
  - rewrite Forall_forall in Hattr.
    by destruct (Hattr NoAttribute (list_elem_of_lookup_2 _ _ _ Hentry)).
  - simpl in H. destruct v as [g|]; [destruct (truth g)|]; by simplify_eq.
Qed.

(** X22: with a force field given whose entries all have the attribute: if,
    for a molecule type [i] with no truthy force field of its own, the
    entry chosen for [i] holds [None] or a falsy object, the loop raises
    [ForceFieldError]. *)
Lemma forcefield_loop_raises (ff : list ff_entry) (range : list nat)
    (st : fstate) (i : nat) (v : option gmso_ff) :
  0 < length ff -> Forall (fun entry => entry <> NoAttribute) ff ->
  i ∈ range ->
  opt_truthy truth (_gmso_forcefields_dict st !! py_str i) = false ->
  ff !! ff_index i (length ff) = Some (Attribute v) ->
  opt_truthy truth v = false ->
  loop ff st range = Raise ForceFieldError.
Proof.
  intros Hlen Hattr Hin Hown Hentry Hv. revert st Hown.
  induction range as [|i0 range IH]; intros st Hown.
  - by apply elem_of_nil in Hin.
  - simpl. destruct (decide (i0 = i)) as [->|Hne].
    + unfold forcefield_step, getitem. rewrite Hown, Hentry. simpl.
      destruct v as [g|]; simpl in Hv; [by rewrite Hv|done].
    + destruct (step ff st i0) as [st'|e] eqn:Hstep; simpl.
      * apply IH.
        -- apply elem_of_cons in Hin as [?|?]; [congruence|done].
        -- rewrite (forcefield_step_ok ff st st' i0); [done|done|].
           unfold py_str. intros Heq. apply (inj pretty) in Heq. congruence.
      * by rewrite (forcefield_step_raise ff st i0 e Hlen Hattr Hstep).
Qed.

End ForceFieldFacts.

(** ** Lattice placement *)

Section LatticeFacts.
Import Lattice.
Context {compound : Type}.
Implicit Types (all : list compound) (layer : list (@unit_cell compound)).








End LatticeFacts.

Section LatticeSamples.
Import Lattice.

(** Five molecules on a 2 x 2 grid: two cells in the first layer, none in
    the second, the fifth molecule left out. *)
Lemma lattice_five_molecules :
  _build_system [10; 11; 12; 13; 14] 2
  = Ok [ {| cells := [ {| comp1 := 10; comp2 := 11; cell_j := 0 |};
                       {| comp1 := 12; comp2 := 13; cell_j := 1 |} ];
            layer_i := 0 |};
         {| cells := []; layer_i := 1 |} ].
Proof. reflexivity. Qed.

(** Four molecules on a 1 x 1 grid: one cell, the last two left out. *)
Lemma lattice_too_many_molecules :
  _build_system [10; 11; 12; 13] 1
  = Ok [ {| cells := [ {| comp1 := 10; comp2 := 11; cell_j := 0 |} ];
            layer_i := 0 |} ].
Proof. reflexivity. Qed.

End LatticeSamples.

(** ** References after the force field is applied *)

Section ApplyFacts.
Import Charges ApplyFF.
Local Open Scope Q_scope.

Variable apply : list site -> list site.
Variable factor : string -> string -> Q.









End ApplyFacts.

Section ApplySamples.
Import ApplyFF Samples.
Local Open Scope Q_scope.



(** The references [auto_system] ends with. *)
Lemma apply_forcefield_auto_system :
  exists self',
    _apply_forcefield apply_nothing unit_factor auto_system = Ok self'
    /\ _reference_values self' !! "energy" = Some (Quantity (1 * 1) "kJ/mol")
    /\ _reference_values self' !! "length" = Some (Quantity (1 * 1) "nm")
    /\ _reference_values self' !! "mass"
       = Some (Quantity (12 * (1 * 1)) "amu").
Proof. eexists. split; [reflexivity|]. split_and!; reflexivity. Qed.

End ApplySamples.

(** ** Hydrogen removal *)

Section PositionSums.
Import Hydrogens.
Local Open Scope Q_scope.

Lemma wsum_ext (f g : nat -> Q) (n : nat) :
  (forall i, (i < n)%nat -> f i == g i) -> wsum f n == wsum g n.
Proof.
  induction n as [|n IH]; intros H; simpl; [reflexivity|].
  rewrite IH, (H n) by (intros; try apply H; lia). reflexivity.
Qed.

Lemma wsum_plus (f g : nat -> Q) (n : nat) :
  wsum (fun i => f i + g i) n == wsum f n + wsum g n.
Proof.
  induction n as [|n IH]; simpl; [ring|]. rewrite IH. ring.
Qed.

Lemma wsum_delta (b : nat) (d : Q) (n : nat) :
  wsum (fun i => if (i =? b)%nat then d else 0) n
  == if (b <? n)%nat then d else 0.
Proof.
  induction n as [|n IH]; simpl wsum; [reflexivity|]. rewrite IH.
  destruct (Nat.ltb_spec b n), (Nat.eqb_spec n b), (Nat.ltb_spec b (S n));
    try lia; ring.
Qed.

(** A sum over a list is the sum over its positions. *)
Lemma py_sum_positions (w : atom -> Q) (atoms : list atom) :
  py_sum (map w atoms) == wsum (at_pos w atoms) (length atoms).
Proof.
  induction atoms as [|a atoms IH] using rev_ind; [reflexivity|].
  rewrite map_app, py_sum_app, length_app, Nat.add_1_r. cbn [wsum map length].
  rewrite py_sum_cons, py_sum_nil, IH.
  unfold at_pos at 3. rewrite list_lookup_middle by done. simpl.
  rewrite (wsum_ext (at_pos w (atoms ++ [a])) (at_pos w atoms)).
  - ring.
  - intros i Hi. unfold at_pos. by rewrite lookup_app_l.
Qed.

Lemma py_sum_filter (w : atom -> Q) (p : atom -> bool) (atoms : list atom) :
  py_sum (map w (List.filter p atoms))
  == py_sum (map (fun a => if p a then w a else 0) atoms).
Proof.
  induction atoms as [|a atoms IH]; simpl; [reflexivity|].
  destruct (p a); simpl; rewrite !py_sum_cons, IH; ring.
Qed.

(** A sum over selected positions. *)
Lemma py_sum_selected (g : nat -> Q) (q : nat -> bool) (n : nat) :
  py_sum (map g (List.filter q (seq 0 n)))
  == wsum (fun i => if q i then g i else 0) n.
Proof.
  induction n as [|n IH]; [reflexivity|].
  rewrite seq_S, List.filter_app, map_app, py_sum_app, IH. simpl.
  destruct (q n); simpl; [rewrite py_sum_cons|]; rewrite py_sum_nil; ring.
Qed.

(** Heavy positions and selected positions make up the whole. *)
Lemma wsum_split (q : nat -> bool) (w : atom -> Q) (atoms : list atom)
    (n : nat) :
  wsum (at_pos w atoms) n
  == wsum (heavy q w atoms) n
     + wsum (fun i => if q i then at_pos w atoms i else 0) n.
Proof.
  rewrite <- wsum_plus. apply wsum_ext. intros i _. unfold heavy.
  destruct (q i); ring.
Qed.

End PositionSums.

Section AbsorbFacts.
Import Hydrogens.
Local Open Scope Q_scope.

(** One hydrogen: its atomic number is set, and its mass and charge are
    added to its first bond partner. *)
Lemma absorb_ok (atoms : list atom) (h b : nat) (ha ba : atom) :
  atoms !! h = Some ha -> bond_partners ha !! 0%nat = Some b ->
  b <> h -> atoms !! b = Some ba ->
  absorb atoms h
  = Ok (<[b := add_charge (add_mass ba (a_mass ha)) (a_charge ha)]>
          (<[h := set_atomic_number ha 1]> atoms)).
Proof.
  intros Hh Hb Hne Hba.
  pose proof (lookup_lt_Some _ _ _ Hh) as Hlh.
  pose proof (lookup_lt_Some _ _ _ Hba) as Hlb.
  unfold absorb, update, getitem. rewrite Hh. simpl mbind.
  rewrite list_lookup_insert_eq by done. simpl mbind.
  cbn [bond_partners set_atomic_number]. rewrite Hb. simpl mbind.
  rewrite (list_lookup_insert_ne _ h b), Hba by done. simpl mbind.
  rewrite (list_lookup_insert_ne _ b h) by done.
  rewrite (list_lookup_insert_eq atoms h) by done. simpl mbind.
  rewrite list_lookup_insert_eq by (by rewrite length_insert).
  by rewrite list_insert_insert_eq.
Qed.

Lemma absorb_step (atoms : list atom) (h b : nat) :
  first_partner atoms h = Some b -> (b < length atoms)%nat -> b <> h ->
  exists atoms', absorb atoms h = Ok atoms' /\ absorbed h b atoms atoms'.
Proof.
  unfold first_partner. intros Hfp Hlb Hne.
  destruct (atoms !! h) as [ha|] eqn:Hh; [|done]. simpl in Hfp.
  destruct (lookup_lt_is_Some_2 atoms b Hlb) as [ba Hba].
  pose proof (lookup_lt_Some _ _ _ Hh) as Hlh.
  eexists. split; [by apply (absorb_ok atoms h b ha ba)|].
  assert (Hlook : forall i,
    <[b := add_charge (add_mass ba (a_mass ha)) (a_charge ha)]>
      (<[h := set_atomic_number ha 1]> atoms) !! i
    = if decide (i = b)
      then Some (add_charge (add_mass ba (a_mass ha)) (a_charge ha))
      else if decide (i = h) then Some (set_atomic_number ha 1)
      else atoms !! i).
  { intros i. destruct (decide (i = b)) as [->|Hib].
    - by rewrite list_lookup_insert_eq by (by rewrite length_insert).
    - rewrite list_lookup_insert_ne by done.
      destruct (decide (i = h)) as [->|Hih].
      + by rewrite list_lookup_insert_eq.
      + by rewrite list_lookup_insert_ne. }
  split_and!.
  - by rewrite !length_insert.
  - intros i. unfold first_partner. rewrite Hlook.
    destruct (decide (i = b)) as [->|Hib]; [by rewrite Hba|].
    destruct (decide (i = h)) as [->|Hih]; [by rewrite Hh|done].
  - intros i. rewrite Hlook.
    destruct (decide (i = b)) as [->|Hib].
    + rewrite decide_False by done. by rewrite Hba.
    + by destruct (decide (i = h)).
  - intros i. unfold at_pos. rewrite Hlook, Hh.
    destruct (decide (i = b)) as [->|Hib].
    + rewrite Nat.eqb_refl, Hba. simpl. reflexivity.
    + apply Nat.eqb_neq in Hib as Hib'. rewrite Hib'.
      destruct (decide (i = h)) as [->|Hih]; [rewrite Hh|]; simpl; ring.
  - intros i. unfold at_pos. rewrite Hlook, Hh.
    destruct (decide (i = b)) as [->|Hib].
    + rewrite Nat.eqb_refl, Hba. simpl. reflexivity.
    + apply Nat.eqb_neq in Hib as Hib'. rewrite Hib'.
      destruct (decide (i = h)) as [->|Hih]; [rewrite Hh|]; simpl; ring.
Qed.

End AbsorbFacts.

Section LoopFacts.
Import Hydrogens.
Local Open Scope Q_scope.

Variable q : nat -> bool.

Lemma heavy_step (w : atom -> Q) (atoms atoms' : list atom) (b : nat)
    (m : Q) (n : nat) :
  q b = false -> (b < n)%nat ->
  (forall i, at_pos w atoms' i
             == at_pos w atoms i + if (i =? b)%nat then m else 0) ->
  wsum (heavy q w atoms') n == wsum (heavy q w atoms) n + m.
Proof.
  intros Hqb Hb Hstep.
  rewrite (wsum_ext (heavy q w atoms')
             (fun i => heavy q w atoms i + if (i =? b)%nat then m else 0)).
  - rewrite wsum_plus, wsum_delta.
    apply Nat.ltb_lt in Hb. rewrite Hb. reflexivity.
  - intros i _. unfold heavy. destruct (q i) eqn:Hqi; [|apply Hstep].
    destruct (Nat.eqb_spec i b) as [->|_]; [congruence|ring].
Qed.

Lemma selected_unchanged (w : atom -> Q) (atoms atoms' : list atom)
    (b : nat) (m : Q) (hs : list nat) :
  q b = false -> Forall (fun h => q h = true) hs ->
  (forall i, at_pos w atoms' i
             == at_pos w atoms i + if (i =? b)%nat then m else 0) ->
  py_sum (map (at_pos w atoms') hs) == py_sum (map (at_pos w atoms) hs).
Proof.
  intros Hqb Hhs Hstep.
  induction Hhs as [|h hs Hh _ IH]; simpl; [reflexivity|].
  rewrite !py_sum_cons, IH, Hstep.
  destruct (Nat.eqb_spec h b) as [->|_]; [congruence|ring].
Qed.

(** The whole loop, over hydrogens whose first partner is outside [q]:
    it ends, marks the hydrogens, and moves their masses and charges to
    positions outside [q]. *)
Lemma absorb_all_spec (hs : list nat) (atoms : list atom) :
  Forall (absorbable q atoms) hs ->
  exists atoms',
    absorb_all atoms hs = Ok atoms'
    /\ length atoms' = length atoms
    /\ (forall i, atomic_number <$> atoms' !! i
                  = if bool_decide (i ∈ hs) then Some 1%Z
                    else atomic_number <$> atoms !! i)
    /\ wsum (heavy q a_mass atoms') (length atoms)
       == wsum (heavy q a_mass atoms) (length atoms)
          + py_sum (map (at_pos a_mass atoms) hs)
    /\ wsum (heavy q a_charge atoms') (length atoms)
       == wsum (heavy q a_charge atoms) (length atoms)
          + py_sum (map (at_pos a_charge atoms) hs).
Proof.
  revert atoms. induction hs as [|h hs IH]; intros atoms Hall.
  - exists atoms. simpl. rewrite py_sum_nil.
    split_and!; [done|done|done|ring|ring].
  - apply Forall_cons in Hall as [(Hqh & b & Hfp & Hb & Hqb) Hall].
    assert (Hne : b <> h) by congruence.
    destruct (absorb_step atoms h b Hfp Hb Hne)
      as (atoms1 & Hrun1 & Hlen1 & Hfp1 & Han1 & Hm1 & Hc1).
    destruct (IH atoms1) as (atoms' & Hrun & Hlen & Han & Hm & Hc).
    { eapply Forall_impl; [exact Hall|].
      intros h' (Hqh' & b' & Hfp' & Hb' & Hqb').
      split; [done|]. exists b'. by rewrite Hfp1, Hlen1. }
    assert (Hsel : Forall (fun h' => q h' = true) hs).
    { eapply Forall_impl; [exact Hall|]. by intros h' [? _]. }
    exists atoms'. simpl. rewrite Hrun1. simpl mbind.
    split_and!; [done|congruence| | |].
    + intros i. rewrite Han, Han1.
      destruct (decide (i = h)) as [->|Hih].
      * rewrite (bool_decide_eq_true_2 (h ∈ h :: hs)) by apply list_elem_of_here.
        by destruct (bool_decide (h ∈ hs)).
      * destruct (decide (i ∈ hs)) as [Hin|Hout].
        -- rewrite !bool_decide_eq_true_2; [done| |done].
           by apply list_elem_of_further.
        -- rewrite !bool_decide_eq_false_2; [done| |done].
           by intros [?|?]%elem_of_cons.
    + rewrite Hlen1 in Hm. rewrite Hm, py_sum_cons.
      rewrite (heavy_step a_mass atoms atoms1 b _ _ Hqb Hb Hm1).
      rewrite (selected_unchanged a_mass atoms atoms1 b _ hs Hqb Hsel Hm1).
      ring.
    + rewrite Hlen1 in Hc. rewrite Hc, py_sum_cons.
      rewrite (heavy_step a_charge atoms atoms1 b _ _ Hqb Hb Hc1).
      rewrite (selected_unchanged a_charge atoms atoms1 b _ hs Hqb Hsel Hc1).
      ring.
Qed.

End LoopFacts.

Section RemoveHydrogensFacts.
Import Hydrogens.
Local Open Scope Q_scope.

Lemma elem_of_select (p : atom -> bool) (atoms : list atom) (i : nat) :
  i ∈ select p atoms <-> selected p atoms i = true.
Proof.
  unfold select.
  rewrite list_elem_of_In, filter_In, <- list_elem_of_In, elem_of_seq.
  split; [tauto|]. intros H. split; [|done].
  unfold selected in H. destruct (atoms !! i) eqn:E; [|done].
  apply lookup_lt_Some in E. lia.
Qed.

(** The hydrogens are the atoms one test selects, and no atom outside
    them has atomic number 1. *)
Lemma find_hydrogens_mode (atoms : list atom) :
  exists p,
    find_hydrogens atoms = select p atoms
    /\ forall i a, atoms !! i = Some a -> selected p atoms i = false ->
                   atomic_number a <> 1%Z.
Proof.
  unfold find_hydrogens.
  destruct (length (select by_element atoms) =? 0)%nat eqn:E.
  - exists by_mass. split; [done|]. intros i a Hi _ Han.
    apply Nat.eqb_eq, nil_length_inv in E.
    assert (Hin : i ∈ select by_element atoms).
    { apply elem_of_select. unfold selected. rewrite Hi.
      unfold by_element, element. by apply Z.eqb_eq. }
    rewrite E in Hin. by apply elem_of_nil in Hin.
  - exists by_element. split; [done|]. intros i a Hi Hsel.
    unfold selected in Hsel. rewrite Hi in Hsel.
    unfold by_element, element in Hsel. by apply Z.eqb_neq.
Qed.

Lemma strip_attribute (w : atom -> Q) (atoms : list atom) :
  (forall a, w (reindex atoms a) = w a) ->
  map w (strip atoms) = map w (List.filter kept atoms).
Proof.
  intros Hw. unfold strip. rewrite map_map. by apply map_ext.
Qed.

(** The sum over what [strip] keeps is the sum over the heavy positions,
    once the atoms with atomic number 1 are those of [q]. *)
Lemma strip_sum (q : nat -> bool) (w : atom -> Q) (atoms : list atom) :
  (forall a, w (reindex atoms a) = w a) ->
  (forall i a, atoms !! i = Some a -> kept a = negb (q i)) ->
  py_sum (map w (strip atoms)) == wsum (heavy q w atoms) (length atoms).
Proof.
  intros Hw Hkept.
  rewrite (strip_attribute w atoms Hw), py_sum_filter, py_sum_positions.
  apply wsum_ext. intros i Hi. unfold heavy, at_pos.
  destruct (lookup_lt_is_Some_2 atoms i Hi) as [a Ha].
  rewrite Ha. simpl. rewrite (Hkept i a Ha). by destruct (q i).
Qed.

Lemma strip_length (q : nat -> bool) (atoms : list atom) :
  (forall i a, atoms !! i = Some a -> kept a = negb (q i)) ->
  length (strip atoms)
  = length (List.filter (fun i => negb (q i)) (seq 0 (length atoms))).
Proof.
  unfold strip. rewrite length_map.
  induction atoms as [|a atoms IH] using rev_ind; intros Hkept; [done|].
  rewrite length_app, Nat.add_1_r, seq_S, !List.filter_app, !length_app.
  rewrite IH.
  - f_equal. simpl. rewrite <- (Hkept (length atoms) a).
    + by destruct (kept a).
    + by apply list_lookup_middle.
  - intros i b Hi. apply Hkept. rewrite lookup_app_l; [done|].
    by apply lookup_lt_Some in Hi.
Qed.

Lemma strip_no_hydrogen (atoms : list atom) :
  Forall (fun a => atomic_number a <> 1%Z) (strip atoms).
Proof.
  unfold strip. apply Forall_forall. intros a Ha.
  apply list_elem_of_fmap in Ha as (a' & -> & Ha').
  apply list_elem_of_In, filter_In in Ha' as [_ Hk].
  unfold kept in Hk. simpl. apply negb_true_iff in Hk. by apply Z.eqb_neq.
Qed.

(** X27: when the first bond partner of every hydrogen is an atom of the
    structure that is not a hydrogen, [_remove_hydrogens] returns, no atom
    of the result has atomic number 1, the result has as many atoms fewer
    as there were hydrogens, and the total mass and the total charge are
    what they were. *)
Theorem remove_hydrogens_conserves (atoms : list atom) :
  first_partners_heavy atoms ->
  exists atoms',
    _remove_hydrogens atoms = Ok atoms'
    /\ Forall (fun a => atomic_number a <> 1%Z) atoms'
    /\ (length atoms' + length (find_hydrogens atoms) = length atoms)%nat
    /\ total_mass atoms' == total_mass atoms
    /\ total_charge atoms' == total_charge atoms.
Proof.
  intros Hfp.
  destruct (find_hydrogens_mode atoms) as (p & Hhs & Hnon).
  set (q := selected p atoms).
  assert (Hq : forall i, i ∈ find_hydrogens atoms <-> q i = true).
  { intros i. rewrite Hhs. apply elem_of_select. }
  assert (HF : Forall (absorbable q atoms) (find_hydrogens atoms)).
  { apply Forall_forall. intros h Hh.
    destruct (Hfp h Hh) as (b & Hb1 & Hb2 & Hb3).
    split; [by apply Hq|]. exists b. split_and!; [done|done|].
    destruct (q b) eqn:E; [|done]. by apply Hq in E. }
  destruct (absorb_all_spec q _ atoms HF)
    as (atoms' & Hrun & Hlen & Han & Hm & Hc).
  unfold _remove_hydrogens. rewrite Hrun. simpl mbind.
  destruct (0 <? length (find_hydrogens atoms))%nat eqn:E.
  - assert (Hkept : forall i a', atoms' !! i = Some a' ->
                                 kept a' = negb (q i)).
    { intros i a' Hi. specialize (Han i). rewrite Hi in Han. simpl in Han.
      unfold kept. destruct (bool_decide (i ∈ find_hydrogens atoms)) eqn:B.
      - apply bool_decide_eq_true_1, Hq in B. rewrite B.
        injection Han as ->. done.
      - apply bool_decide_eq_false_1 in B.
        destruct (q i) eqn:Hqi; [by apply Hq in Hqi|].
        destruct (atoms !! i) as [a|] eqn:Ha; [|done].
        injection Han as Han. rewrite Han. simpl.
        apply negb_true_iff, Z.eqb_neq. by apply (Hnon i a). }
    exists (strip atoms'). split_and!.
    + done.
    + apply strip_no_hydrogen.
    + rewrite (strip_length q atoms' Hkept), Hlen, Hhs. unfold select.
      fold q. rewrite Nat.add_comm.
      rewrite (List.filter_length q (seq 0 (length atoms))).
      apply length_seq.
    + unfold total_mass.
      rewrite (strip_sum q a_mass atoms') by done.
      rewrite Hlen, Hm, Hhs. unfold select. fold q.
      rewrite py_sum_selected, py_sum_positions.
      by rewrite (wsum_split q a_mass atoms).
    + unfold total_charge.
      rewrite (strip_sum q a_charge atoms') by done.
      rewrite Hlen, Hc, Hhs. unfold select. fold q.
      rewrite py_sum_selected, py_sum_positions.
      by rewrite (wsum_split q a_charge atoms).
  - apply Nat.ltb_ge in E.
    assert (Hnil : find_hydrogens atoms = []).
    { apply nil_length_inv. lia. }
    exists atoms. rewrite Hnil.
    split_and!; [done| |simpl; lia|reflexivity|reflexivity].
    apply Forall_forall. intros a Ha.
    apply list_elem_of_lookup in Ha as [i Hi].
    apply (Hnon i a Hi). destruct (selected p atoms i) eqn:Hs; [|done].
    apply Hq in Hs. rewrite Hnil in Hs. by apply elem_of_nil in Hs.
Qed.

End RemoveHydrogensFacts.

Section RemoveHydrogensSamples.
Import Hydrogens Samples.
Local Open Scope Q_scope.

Lemma methane_hydrogens : find_hydrogens methane = [1; 2; 3; 4]%nat.
Proof. reflexivity. Qed.

Lemma chain_hydrogens : find_hydrogens chain = [1; 2]%nat.
Proof. reflexivity. Qed.

Lemma remove_hydrogens_conserves_witness :
  exists atoms',
    _remove_hydrogens methane = Ok atoms'
    /\ Forall (fun a => atomic_number a <> 1%Z) atoms'
    /\ (length atoms' + length (find_hydrogens methane) = length methane)%nat
    /\ total_mass atoms' == total_mass methane
    /\ total_charge atoms' == total_charge methane.
Proof.
  apply (remove_hydrogens_conserves methane).
  intros h Hh. rewrite methane_hydrogens in *. exists 0%nat.
  assert (Hfp : first_partner methane h = Some 0%nat).
  { rewrite !elem_of_cons, elem_of_nil in Hh.
    destruct Hh as [->|[->|[->|[->|[]]]]]; reflexivity. }
  split_and!; [done|simpl; lia|].
  rewrite !elem_of_cons, elem_of_nil. lia.
Defined.

(** What is left of methane. *)
Lemma remove_hydrogens_methane :
  _remove_hydrogens methane = Ok [Atom 6 (12 + 1 + 1 + 1 + 1)
                                    ((-4 # 10) + (1 # 10) + (1 # 10) + (1 # 10) + (1 # 10))
                                    []].
Proof. reflexivity. Qed.

(** C2, at the chain C-H-H-C: every hydrogen is bonded to a carbon, yet
    the mass and charge of the second hydrogen go to the first hydrogen,
    its first bond partner, and are dropped with it; the carbon the second
    hydrogen is bonded to receives nothing, and the total mass and total
    charge change. *)
Lemma remove_hydrogens_chain_loses_mass :
  bonded_to_heavy chain
  /\ _remove_hydrogens chain
     = Ok [ Atom 6 (12 + 1) (0 + (1 # 10)) []; Atom 6 12 0 [] ]
  /\ exists atoms',
       _remove_hydrogens chain = Ok atoms'
       /\ Forall (fun a => atomic_number a <> 1%Z) atoms'
       /\ total_mass chain == 26
       /\ total_mass atoms' == 25
       /\ ~ total_mass atoms' == total_mass chain
       /\ ~ total_charge atoms' == total_charge chain.
Proof.
  split_and!.
  - intros h Hh. rewrite chain_hydrogens in *.
    rewrite !elem_of_cons, elem_of_nil in Hh.
    destruct Hh as [->|[->|[]]].
    + eexists _, 0%nat. split; [reflexivity|].
      split_and!; [apply list_elem_of_here|simpl; lia|].
      rewrite !elem_of_cons, elem_of_nil. lia.
    + eexists _, 3%nat. split; [reflexivity|].
      split_and!; [apply list_elem_of_further, list_elem_of_here|simpl; lia|].
      rewrite !elem_of_cons, elem_of_nil. lia.
  - reflexivity.
  - eexists. split; [reflexivity|].
    split_and!; [repeat constructor; discriminate|reflexivity|reflexivity| |].
    + intros H. vm_compute in H. discriminate.
    + intros H. vm_compute in H. discriminate.
Qed.

End RemoveHydrogensSamples.

(** ** More on charge scaling *)

Section ChargeScalingFacts.
Import Charges.
Local Open Scope Q_scope.

Lemma abs_sum_cons (s : site) (sites : list site) :
  abs_sum (s :: sites) == Qabs (charge_or_zero s) + abs_sum sites.
Proof. unfold abs_sum. simpl. apply py_sum_cons. Qed.

Lemma net_charge_cons (s : site) (sites : list site) :
  net_charge (s :: sites) == charge_or_zero s + net_charge sites.
Proof. unfold net_charge. simpl. apply py_sum_cons. Qed.

Lemma abs_sum_nonneg (sites : list site) : 0 <= abs_sum sites.
Proof.
  induction sites as [|s sites IH];
    [unfold abs_sum; simpl; rewrite py_sum_nil; Lqa.lra|].
  rewrite abs_sum_cons.
  pose proof (Qabs_nonneg (charge_or_zero s)). Lqa.lra.
Qed.

(** The net charge is within the sum of the absolute charges. *)
Lemma net_charge_le_abs_sum (sites : list site) :
  Qabs (net_charge sites) <= abs_sum sites.
Proof.
  induction sites as [|s sites IH].
  - unfold net_charge, abs_sum. simpl. rewrite py_sum_nil. apply Qle_refl.
  - rewrite abs_sum_cons, net_charge_cons.
    pose proof (Qabs_triangle (charge_or_zero s) (net_charge sites)).
    Lqa.lra.
Qed.

Lemma abs_sum_zero (sites : list site) :
  Forall (fun s => charge_or_zero s == 0) sites -> abs_sum sites == 0.
Proof.
  induction 1 as [|s sites Hs _ IH]; [reflexivity|].
  rewrite abs_sum_cons, IH, Hs. reflexivity.
Qed.

(** X1: a system whose charges are all [None] or zero comes back from
    [_scale_charges] as it was; no division takes place and a [None]
    charge raises nothing. *)
Theorem scale_charges_uncharged (sites : list site) :
  Forall (fun s => charge_or_zero s == 0) sites ->
  _scale_charges sites = Ok sites.
Proof.
  intros H. unfold _scale_charges. fold (abs_sum sites).
  apply abs_sum_zero, Qeq_bool_iff in H. by rewrite H.
Qed.

Lemma scale_charges_uncharged_witness :
  _scale_charges
    [ {| charge := None; mass := Quantity 12 "amu";
         epsilon := Quantity 1 "kJ/mol"; sigma := Quantity 1 "nm" |};
      {| charge := Some 0; mass := Quantity 1 "amu";
         epsilon := Quantity 1 "kJ/mol"; sigma := Quantity 1 "nm" |} ]
  = Ok [ {| charge := None; mass := Quantity 12 "amu";
            epsilon := Quantity 1 "kJ/mol"; sigma := Quantity 1 "nm" |};
         {| charge := Some 0; mass := Quantity 1 "amu";
            epsilon := Quantity 1 "kJ/mol"; sigma := Quantity 1 "nm" |} ].
Proof.
  apply scale_charges_uncharged. repeat constructor.
Defined.

Lemma scale_loop_none (ratio : Q) (sites : list site) :
  Exists (fun s => charge s = None) sites ->
  scale_loop ratio sites = Raise TypeError.
Proof.
  induction sites as [|s sites IH]; intros H; [by apply Exists_nil in H|].
  simpl. unfold isub_charge. destruct (charge s) as [q|] eqn:Hq; [|done].
  simpl. rewrite IH; [done|].
  apply Exists_cons in H as [H|H]; [congruence|done].
Qed.

(** X2: with charges that do not all vanish, a single site without a
    charge makes [_scale_charges] raise [TypeError]. *)
Theorem scale_charges_missing_charge (sites : list site) :
  Exists (fun s => charge s = None) sites ->
  ~ abs_sum sites == 0 ->
  _scale_charges sites = Raise TypeError.
Proof.
  intros Hnone Habs. unfold _scale_charges. fold (abs_sum sites).
  destruct (Qeq_bool (abs_sum sites) 0) eqn:E.
  - apply Qeq_bool_iff in E. contradiction.
  - simpl. by apply scale_loop_none.
Qed.

Lemma scale_charges_missing_charge_witness :
  _scale_charges
    [ {| charge := Some 1; mass := Quantity 12 "amu";
         epsilon := Quantity 1 "kJ/mol"; sigma := Quantity 1 "nm" |};
      {| charge := None; mass := Quantity 1 "amu";
         epsilon := Quantity 1 "kJ/mol"; sigma := Quantity 1 "nm" |} ]
  = Raise TypeError.
Proof.
  apply scale_charges_missing_charge.
  - apply Exists_cons_tl, Exists_cons_hd. reflexivity.
  - vm_compute. discriminate.
Defined.

(** The scaling ratio lies between -1 and 1. *)
Lemma ratio_bounds (sites : list site) :
  ~ abs_sum sites == 0 ->
  -1 <= net_charge sites / abs_sum sites <= 1.
Proof.
  intros Hne.
  pose proof (abs_sum_nonneg sites) as H0.
  pose proof (net_charge_le_abs_sum sites) as Hle.
  assert (Hpos : 0 < abs_sum sites) by (apply Qle_lteq in H0 as [?|E]; [done|by rewrite E in Hne]).
  apply Qabs_Qle_condition in Hle as [Hl Hu].
  split.
  - apply Qle_shift_div_l; [done|]. Lqa.lra.
  - apply Qle_shift_div_r; [done|]. Lqa.lra.
Qed.

Lemma rescaled_sign (ratio : Q) (s s' : site) :
  -1 <= ratio <= 1 -> rescaled ratio s s' -> sign_kept s s'.
Proof.
  intros [Hl Hu] (q & q' & Hq & Hq' & Heq) q0 q0' H0 H0'.
  simplify_eq. rewrite Heq. split; intros Hs.
  - rewrite (Qabs_pos q Hs). Lqa.nra.
  - rewrite (Qabs_neg q Hs). Lqa.nra.
Qed.

(** X3: when every site has a charge, [_scale_charges] returns and no
    charge changes sign: a charge that was not negative is not negative
    afterwards, one that was not positive is not positive afterwards. *)
Theorem scale_charges_keeps_sign (sites : list site) :
  Forall (fun s => charge s <> None) sites ->
  exists sites',
    _scale_charges sites = Ok sites' /\ Forall2 sign_kept sites sites'.
Proof.
  intros Hall. unfold _scale_charges.
  fold (abs_sum sites). fold (net_charge sites).
  destruct (Qeq_bool (abs_sum sites) 0) eqn:E; simpl.
  - exists sites. split; [done|].
    apply Forall2_same_length_lookup_2; [done|].
    intros i s s' Hs Hs' q q' Hq Hq'. by simplify_eq.
  - apply Qeq_bool_neq in E.
    destruct (scale_loop_ok (net_charge sites / abs_sum sites) sites Hall)
      as (sites' & Hrun & Hrel).
    exists sites'. split; [done|].
    eapply Forall2_impl; [exact Hrel|].
    intros s s'. apply rescaled_sign, ratio_bounds, E.
Qed.

Lemma scale_charges_keeps_sign_witness :
  exists sites',
    _scale_charges Samples.two_sites = Ok sites'
    /\ Forall2 sign_kept Samples.two_sites sites'.
Proof.
  apply scale_charges_keeps_sign. repeat constructor; discriminate.
Defined.

Lemma rescaled_has_charge (ratio : Q) (sites sites' : list site) :
  Forall2 (rescaled ratio) sites sites' ->
  Forall (fun s => charge s <> None) sites'.
Proof.
  induction 1 as [|s s' sites sites' (q & q' & _ & Hq' & _) _ IH];
    constructor; [congruence|done].
Qed.

Lemma same_charge_refl (sites : list site) :
  Forall (fun s => charge s <> None) sites -> Forall2 same_charge sites sites.
Proof.
  induction 1 as [|s sites Hs _ IH]; constructor; [|done].
  destruct (charge s) as [q|] eqn:Hq; [|done].
  exists q, q. split_and!; [done|done|reflexivity].
Qed.

(** The net charge after a scaling that took place. *)
Lemma scale_loop_neutral (sites sites' : list site) :
  ~ abs_sum sites == 0 ->
  Forall2 (rescaled (net_charge sites / abs_sum sites)) sites sites' ->
  net_charge sites' == 0.
Proof.
  intros Hne Hrel. rewrite (rescaled_sum _ _ _ Hrel). by field.
Qed.

(** X4: scaling is idempotent: when every site has a charge, scaling the
    scaled charges again returns and leaves each charge as the first
    scaling set it. *)
Theorem scale_charges_idempotent (sites : list site) :
  Forall (fun s => charge s <> None) sites ->
  exists once twice,
    _scale_charges sites = Ok once
    /\ _scale_charges once = Ok twice
    /\ Forall2 same_charge once twice.
Proof.
  intros Hall.
  assert (Hstay : forall l, Forall (fun s => charge s <> None) l ->
            Qeq_bool (abs_sum l) 0 = true ->
            _scale_charges l = Ok l).
  { intros l _ E. unfold _scale_charges. fold (abs_sum l). by rewrite E. }
  destruct (Qeq_bool (abs_sum sites) 0) eqn:E.
  - exists sites, sites. rewrite (Hstay sites Hall E).
    split_and!; [done|done|by apply same_charge_refl].
  - destruct (scale_loop_ok (net_charge sites / abs_sum sites) sites Hall)
      as (once & Hrun & Hrel).
    assert (Honce : _scale_charges sites = Ok once).
    { unfold _scale_charges. fold (abs_sum sites). fold (net_charge sites).
      by rewrite E. }
    pose proof (rescaled_has_charge _ _ _ Hrel) as Hall1.
    apply Qeq_bool_neq in E.
    pose proof (scale_loop_neutral sites once E Hrel) as Hnet.
    exists once. rewrite Honce.
    destruct (Qeq_bool (abs_sum once) 0) eqn:E1.
    + exists once. rewrite (Hstay once Hall1 E1).
      split_and!; [done|done|by apply same_charge_refl].
    + destruct (scale_loop_ok (net_charge once / abs_sum once) once Hall1)
        as (twice & Hrun2 & Hrel2).
      exists twice. split_and!; [done| |].
      * unfold _scale_charges. fold (abs_sum once). fold (net_charge once).
        by rewrite E1.
      * eapply Forall2_impl; [exact Hrel2|].
        intros s s' (q & q' & Hq & Hq' & Heq).
        exists q, q'. split_and!; [done|done|].
        rewrite Heq, Hnet. unfold Qdiv. ring.
Qed.

Lemma scale_charges_idempotent_witness :
  exists once twice,
    _scale_charges Samples.two_sites = Ok once
    /\ _scale_charges once = Ok twice
    /\ Forall2 same_charge once twice.
Proof.
  apply scale_charges_idempotent. repeat constructor; discriminate.
Defined.

End ChargeScalingFacts.

(** ** More on hydrogen removal *)

Section HydrogenEdgeFacts.
Import Hydrogens.
Local Open Scope Q_scope.

Lemma update_ok (atoms : list atom) (i : nat) (f : atom -> atom) (a : atom) :
  atoms !! i = Some a -> update atoms i f = Ok (<[i := f a]> atoms).
Proof. intros H. unfold update. by rewrite H. Qed.

Lemma getitem_ok {A} (l : list A) (i : nat) (a : A) :
  l !! i = Some a -> getitem l i = Ok a.
Proof. intros H. unfold getitem. by rewrite H. Qed.

(** A turn of the loop on a hydrogen with a first bond partner in the
    structure goes through, whatever that partner is. *)
Lemma absorb_total (atoms : list atom) (h b : nat) :
  first_partner atoms h = Some b -> (b < length atoms)%nat ->
  exists atoms',
    absorb atoms h = Ok atoms'
    /\ length atoms' = length atoms
    /\ (forall i, first_partner atoms' i = first_partner atoms i)
    /\ (forall i, atomic_number <$> atoms' !! i
                  = if decide (i = h) then Some 1%Z
                    else atomic_number <$> atoms !! i).
Proof.
  intros Hfp Hb. destruct (decide (b = h)) as [->|Hne].
  - unfold first_partner in Hfp.
    destruct (atoms !! h) as [ha|] eqn:Hh; [|done]. simpl in Hfp.
    pose proof (lookup_lt_Some _ _ _ Hh) as Hlh.
    exists (<[h := add_charge
                     (add_mass (set_atomic_number ha 1)
                        (a_mass (set_atomic_number ha 1)))
                     (a_charge (add_mass (set_atomic_number ha 1)
                                  (a_mass (set_atomic_number ha 1))))]> atoms).
    split_and!.
    + assert (H1 : <[h := set_atomic_number ha 1]> atoms !! h
                   = Some (set_atomic_number ha 1))
        by (by apply list_lookup_insert_eq).
      assert (H2 : forall a2,
                <[h := a2]> (<[h := set_atomic_number ha 1]> atoms) !! h
                = Some a2).
      { intros a2. apply list_lookup_insert_eq. by rewrite length_insert. }
      unfold absorb.
      rewrite (update_ok atoms h _ ha Hh). cbn beta. simpl mbind.
      rewrite (getitem_ok _ h _ H1). simpl mbind.
      rewrite (getitem_ok (bond_partners ha) 0 h Hfp). simpl mbind.
      rewrite (update_ok _ h _ _ H1). cbn beta. simpl mbind.
      rewrite (getitem_ok _ h _ (H2 _)). simpl mbind.
      rewrite (update_ok _ h _ _ (H2 _)). cbn beta.
      by rewrite !list_insert_insert_eq.
    + by rewrite length_insert.
    + intros i. unfold first_partner.
      destruct (decide (i = h)) as [->|Hih].
      * rewrite list_lookup_insert_eq by done. by rewrite Hh.
      * by rewrite list_lookup_insert_ne.
    + intros i. destruct (decide (i = h)) as [->|Hih].
      * by rewrite list_lookup_insert_eq.
      * by rewrite list_lookup_insert_ne.
  - destruct (absorb_step atoms h b Hfp Hb Hne)
      as (atoms' & Hrun & Hlen & Hfp' & Han & _).
    by exists atoms'.
Qed.

(** A turn of the loop on a hydrogen without a bond stops at
    [h.bond_partners[0]]. *)
Lemma absorb_no_bond (atoms : list atom) (h : nat) :
  is_Some (atoms !! h) -> first_partner atoms h = None ->
  absorb atoms h = Raise IndexError.
Proof.
  unfold first_partner. intros [ha Hh] Hfp. rewrite Hh in Hfp. simpl in Hfp.
  pose proof (lookup_lt_Some _ _ _ Hh) as Hlh.
  unfold absorb, update, getitem. rewrite Hh. simpl mbind.
  rewrite (list_lookup_insert_eq atoms h) by done. simpl mbind.
  cbn [bond_partners set_atomic_number]. by rewrite Hfp.
Qed.

Lemma absorb_all_total (hs : list nat) (atoms : list atom) :
  Forall (fun h => exists b, first_partner atoms h = Some b
                             /\ (b < length atoms)%nat) hs ->
  exists atoms',
    absorb_all atoms hs = Ok atoms'
    /\ length atoms' = length atoms
    /\ (forall i, atomic_number <$> atoms' !! i
                  = if bool_decide (i ∈ hs) then Some 1%Z
                    else atomic_number <$> atoms !! i).
Proof.
  revert atoms. induction hs as [|h hs IH]; intros atoms Hall.
  - by exists atoms.
  - apply Forall_cons in Hall as [(b & Hfp & Hb) Hall].
    destruct (absorb_total atoms h b Hfp Hb)
      as (atoms1 & Hrun1 & Hlen1 & Hfp1 & Han1).
    destruct (IH atoms1) as (atoms' & Hrun & Hlen & Han).
    { eapply Forall_impl; [exact Hall|].
      intros h' (b' & Hfp' & Hb'). exists b'. by rewrite Hfp1, Hlen1. }
    exists atoms'. simpl. rewrite Hrun1. simpl mbind.
    split_and!; [done|congruence|].
    intros i. rewrite Han, Han1.
    destruct (decide (i = h)) as [->|Hih].
    + rewrite (bool_decide_eq_true_2 (h ∈ h :: hs)) by apply list_elem_of_here.
      by destruct (bool_decide (h ∈ hs)).
    + destruct (decide (i ∈ hs)) as [Hin|Hout].
      * rewrite !bool_decide_eq_true_2; [done| |done].
        by apply list_elem_of_further.
      * rewrite !bool_decide_eq_false_2; [done| |done].
        by intros [?|?]%elem_of_cons.
Qed.

Lemma absorb_all_no_bond (hs : list nat) (atoms : list atom) :
  Forall (fun h => is_Some (atoms !! h)
                   /\ forall b, first_partner atoms h = Some b ->
                                (b < length atoms)%nat) hs ->
  Exists (fun h => first_partner atoms h = None) hs ->
  absorb_all atoms hs = Raise IndexError.
Proof.
  revert atoms. induction hs as [|h hs IH]; intros atoms Hall Hex.
  - by apply Exists_nil in Hex.
  - apply Forall_cons in Hall as [[Hh Hrange] Hall]. simpl.
    destruct (first_partner atoms h) as [b|] eqn:Hfp.
    + destruct (absorb_total atoms h b Hfp (Hrange b eq_refl))
        as (atoms1 & Hrun1 & Hlen1 & Hfp1 & Han1).
      rewrite Hrun1. simpl mbind. apply IH.
      * eapply Forall_impl; [exact Hall|].
        intros h' [Hh' Hr']. split.
        -- apply lookup_lt_is_Some. rewrite Hlen1.
           by apply lookup_lt_is_Some.
        -- intros b'. rewrite Hfp1, Hlen1. apply Hr'.
      * apply Exists_cons in Hex as [Hex|Hex]; [congruence|].
        eapply Exists_impl; [exact Hex|].
        intros h'. by rewrite Hfp1.
    + by rewrite (absorb_no_bond atoms h Hh Hfp).
Qed.

Lemma selected_in_range (p : atom -> bool) (atoms : list atom) (h : nat) :
  h ∈ select p atoms -> exists a, atoms !! h = Some a /\ p a = true.
Proof.
  intros Hh. apply elem_of_select in Hh. unfold selected in Hh.
  destruct (atoms !! h) as [a|]; [by exists a|done].
Qed.

Lemma hydrogen_in_range (atoms : list atom) (h : nat) :
  h ∈ find_hydrogens atoms -> is_Some (atoms !! h).
Proof.
  destruct (find_hydrogens_mode atoms) as (p & -> & _). intros Hh.
  destruct (selected_in_range p atoms h Hh) as (a & Ha & _). by exists a.
Qed.

Lemma first_partner_in_range (atoms : list atom) (h b : nat) :
  bonds_in_range atoms -> first_partner atoms h = Some b ->
  (b < length atoms)%nat.
Proof.
  unfold first_partner. intros Hr Hfp.
  destruct (atoms !! h) as [a|] eqn:Ha; [|done]. simpl in Hfp.
  apply (Hr h a b Ha). by apply list_elem_of_lookup_2 in Hfp.
Qed.

(** X5: in a structure whose bonds all lead to atoms of the structure, a
    hydrogen without any bond makes [_remove_hydrogens] raise
    [IndexError]. *)
Theorem remove_hydrogens_unbonded (atoms : list atom) :
  bonds_in_range atoms ->
  (exists h a, h ∈ find_hydrogens atoms /\ atoms !! h = Some a
               /\ bond_partners a = []) ->
  _remove_hydrogens atoms = Raise IndexError.
Proof.
  intros Hr (h & a & Hh & Ha & Hnil).
  unfold _remove_hydrogens. rewrite absorb_all_no_bond; [done| |].
  - apply Forall_forall. intros h' Hh'. split.
    + by apply hydrogen_in_range.
    + intros b. by apply first_partner_in_range.
  - apply Exists_exists. exists h. split; [done|].
    unfold first_partner. rewrite Ha. simpl. by rewrite Hnil.
Qed.

Lemma remove_hydrogens_unbonded_witness :
  _remove_hydrogens Samples.lone_hydrogen = Raise IndexError.
Proof.
  apply remove_hydrogens_unbonded.
  - intros i a b Hi Hb.
    destruct i as [|[|i]]; simpl in Hi; simplify_eq; simpl in Hb;
      by apply elem_of_nil in Hb.
  - exists 1%nat, (Atom 1 1 0 []). split_and!; [|done|done].
    apply list_elem_of_here.
Defined.

(** After the loop the atoms with atomic number 1 are the hydrogens. *)
Lemma marked_kept (atoms atoms' : list atom) (p : atom -> bool) :
  find_hydrogens atoms = select p atoms ->
  (forall i a, atoms !! i = Some a -> selected p atoms i = false ->
               atomic_number a <> 1%Z) ->
  (forall i, atomic_number <$> atoms' !! i
             = if bool_decide (i ∈ find_hydrogens atoms) then Some 1%Z
               else atomic_number <$> atoms !! i) ->
  forall i a', atoms' !! i = Some a' ->
               kept a' = negb (selected p atoms i).
Proof.
  intros Hhs Hnon Han i a' Hi. specialize (Han i).
  rewrite Hi in Han. simpl in Han. unfold kept.
  destruct (bool_decide (i ∈ find_hydrogens atoms)) eqn:B.
  - apply bool_decide_eq_true_1 in B. rewrite Hhs in B.
    apply elem_of_select in B. rewrite B. by injection Han as ->.
  - apply bool_decide_eq_false_1 in B.
    destruct (selected p atoms i) eqn:Hs.
    { exfalso. apply B. rewrite Hhs. by apply elem_of_select. }
    destruct (atoms !! i) as [a|] eqn:Ha; [|done].
    injection Han as Han. rewrite Han. simpl.
    apply negb_true_iff, Z.eqb_neq. by apply (Hnon i a).
Qed.

(** X6: in a structure whose bonds all lead to atoms of the structure,
    when every hydrogen has at least one bond, [_remove_hydrogens]
    returns, no atom of the result has atomic number 1, and the result
    has as many atoms fewer as there were hydrogens. *)
Theorem remove_hydrogens_strips (atoms : list atom) :
  bonds_in_range atoms ->
  (forall h a, h ∈ find_hydrogens atoms -> atoms !! h = Some a ->
               bond_partners a <> []) ->
  exists atoms',
    _remove_hydrogens atoms = Ok atoms'
    /\ Forall (fun a => atomic_number a <> 1%Z) atoms'
    /\ (length atoms' + length (find_hydrogens atoms)
        = length atoms)%nat.
Proof.
  intros Hr Hbond.
  destruct (find_hydrogens_mode atoms) as (p & Hhs & Hnon).
  assert (HF : Forall (fun h => exists b, first_partner atoms h = Some b
                                       /\ (b < length atoms)%nat)
                 (find_hydrogens atoms)).
  { apply Forall_forall. intros h Hh.
    destruct (hydrogen_in_range atoms h Hh) as [a Ha].
    specialize (Hbond h a Hh Ha).
    destruct (bond_partners a) as [|b bs] eqn:Hb; [done|].
    exists b. assert (Hfp : first_partner atoms h = Some b).
    { unfold first_partner. rewrite Ha. simpl. by rewrite Hb. }
    split; [done|]. by apply (first_partner_in_range atoms h). }
  destruct (absorb_all_total _ atoms HF) as (atoms' & Hrun & Hlen & Han).
  unfold _remove_hydrogens. rewrite Hrun. simpl mbind.
  destruct (0 <? length (find_hydrogens atoms))%nat eqn:E.
  - pose proof (marked_kept atoms atoms' p Hhs Hnon Han) as Hkept.
    exists (strip atoms'). split_and!; [done|apply strip_no_hydrogen|].
    rewrite (strip_length (selected p atoms) atoms' Hkept), Hlen, Hhs.
    unfold select. rewrite Nat.add_comm.
    rewrite (List.filter_length (selected p atoms) (seq 0 (length atoms))).
    apply length_seq.
  - apply Nat.ltb_ge in E.
    assert (Hnil : find_hydrogens atoms = []) by (apply nil_length_inv; lia).
    exists atoms. rewrite Hnil. split_and!; [done| |simpl; lia].
    apply Forall_forall. intros a Ha.
    apply list_elem_of_lookup in Ha as [i Hi].
    apply (Hnon i a Hi). destruct (selected p atoms i) eqn:Hs; [|done].
    apply elem_of_select in Hs. rewrite <- Hhs, Hnil in Hs.
    by apply elem_of_nil in Hs.
Qed.

Lemma remove_hydrogens_strips_witness :
  exists atoms',
    _remove_hydrogens Samples.hydrogen_molecule = Ok atoms'
    /\ Forall (fun a => atomic_number a <> 1%Z) atoms'
    /\ (length atoms' + length (find_hydrogens Samples.hydrogen_molecule)
        = length Samples.hydrogen_molecule)%nat.
Proof.
  apply remove_hydrogens_strips.
  - intros i a b Hi Hb.
    destruct i as [|[|[|i]]]; simpl in Hi; simplify_eq; simpl in Hb;
      rewrite ?elem_of_cons, elem_of_nil in Hb; simpl; lia.
  - intros h a Hh Ha.
    change (find_hydrogens Samples.hydrogen_molecule) with [1; 2]%nat in Hh.
    rewrite !elem_of_cons, elem_of_nil in Hh.
    destruct Hh as [->|[->|[]]]; simpl in Ha; by simplify_eq.
Defined.

(** Selecting with a test no atom passes gives nothing. *)
Lemma select_none (p : atom -> bool) (atoms : list atom) :
  Forall (fun a => p a = false) atoms -> select p atoms = [].
Proof.
  intros Hall. destruct (select p atoms) as [|h hs] eqn:E; [done|].
  assert (Hh : h ∈ select p atoms) by (rewrite E; apply list_elem_of_here).
  destruct (selected_in_range p atoms h Hh) as (a & Ha & Hp).
  rewrite Forall_forall in Hall.
  rewrite (Hall a) in Hp; [done|]. by apply list_elem_of_lookup_2 in Ha.
Qed.

(** X7: a structure in which no atom has atomic number 1 nor the mass
    1.008 goes through [_remove_hydrogens] unchanged. *)
Theorem remove_hydrogens_none (atoms : list atom) :
  Forall (fun a => atomic_number a <> 1%Z
                   /\ ~ a_mass a == 1008 # 1000) atoms ->
  _remove_hydrogens atoms = Ok atoms.
Proof.
  intros Hall.
  assert (He : select by_element atoms = []).
  { apply select_none. eapply Forall_impl; [exact Hall|].
    intros a [Ha _]. unfold by_element, element. by apply Z.eqb_neq. }
  assert (Hm : select by_mass atoms = []).
  { apply select_none. eapply Forall_impl; [exact Hall|].
    intros a [_ Ha]. unfold by_mass.
    destruct (Qeq_bool (a_mass a) (1008 # 1000)) eqn:E; [|done].
    by apply Qeq_bool_iff in E. }
  unfold _remove_hydrogens, find_hydrogens. rewrite He. simpl.
  by rewrite Hm.
Qed.

Lemma remove_hydrogens_none_witness :
  _remove_hydrogens Samples.carbon_dioxide = Ok Samples.carbon_dioxide.
Proof.
  apply remove_hydrogens_none.
  repeat constructor; simpl; try discriminate.
Defined.

End HydrogenEdgeFacts.

(** ** More on the target box *)

Section TargetBoxEdgeFacts.
Import TargetBox.
Local Open Scope R_scope.

(** X8: constraints that are [None] or [0.0] count as no constraint: the
    target box is the one [set_target_box()] gives. *)
Theorem set_target_box_falsy_constraints (mass density : R)
    (x_constraint y_constraint z_constraint : option R) :
  truthy x_constraint = false -> truthy y_constraint = false ->
  truthy z_constraint = false ->
  set_target_box mass density x_constraint y_constraint z_constraint
  = set_target_box mass density None None None.
Proof.
  intros Hx Hy Hz. unfold set_target_box. cbn [existsb].
  rewrite Hx, Hy, Hz. reflexivity.
Qed.

Lemma set_target_box_falsy_constraints_witness :
  set_target_box 1000 1 (Some 0) None (Some 0)
  = set_target_box 1000 1 None None None.
Proof.
  apply set_target_box_falsy_constraints; try reflexivity;
    unfold truthy; destruct (Req_dec_T 0 0); congruence.
Defined.

Lemma set_target_box_no_x_witness :
  set_target_box 1000 1 None (Some 3) None = Raise TypeError.
Proof.
  apply set_target_box_no_x. rewrite truthy_pos by lra. reflexivity.
Defined.

(** The square of the square root. *)
Lemma square_root_squared (v : R) :
  0 < v -> Rpower v (1 / 2) * Rpower v (1 / 2) = v.
Proof.
  intros Hv. rewrite <- Rpower_plus.
  replace (1 / 2 + 1 / 2) with 1 by field. by apply Rpower_1.
Qed.

(** X10: with one fixed length (in cm) [_calculate_L] solves for the side
    of the square that completes the volume: the box of the fixed length
    and twice the solved one has the mass at the density. *)
Theorem calculate_L_one_fixed (mass density x : R) :
  0 < mass -> 0 < density -> 0 < x ->
  exists L,
    _calculate_L mass density (Some [x * 1e-7]) = Ok L
    /\ 0 < L
    /\ volume_cm3 x L L * density = grams mass.
Proof.
  intros Hm Hd Hx.
  pose proof (grams_pos mass Hm) as Hg.
  assert (Hf : 0 < x * 1e-7 * 1) by lra.
  assert (Hv : 0 < grams mass / density / (x * 1e-7 * 1)).
  { repeat apply Rdiv_lt_0_compat; assumption. }
  exists (Rpower (grams mass / density / (x * 1e-7 * 1)) (1 / 2) * 1e7).
  split_and!.
  - unfold _calculate_L. fold (grams mass).
    rewrite (py_div_pos _ _ Hd). cbn -[Rmult Rdiv Rpower IZR Rinv].
    rewrite (py_div_pos _ _ Hf). cbn -[Rmult Rdiv Rpower IZR Rinv].
    by rewrite (py_pow_pos _ _ Hv).
  - apply Rmult_lt_0_compat; [unfold Rpower; apply exp_pos|lra].
  - unfold volume_cm3.
    set (P := Rpower (grams mass / density / (x * 1e-7 * 1)) (1 / 2)).
    replace (x * 1e-7 * (P * 1e7 * 1e-7) * (P * 1e7 * 1e-7) * density)
      with (x * 1e-7 * (P * P) * density) by lra.
    unfold P. rewrite (square_root_squared _ Hv). field. lra.
Qed.

Lemma calculate_L_one_fixed_witness :
  exists L,
    _calculate_L 1000 1 (Some [2 * 1e-7]) = Ok L
    /\ 0 < L
    /\ volume_cm3 2 L L * 1 = grams 1000.
Proof. apply (calculate_L_one_fixed 1000 1 2); lra. Defined.

Lemma calculate_L_two_fixed_witness :
  exists L,
    _calculate_L 1000 1 (Some [2 * 1e-7; 3 * 1e-7]) = Ok L
    /\ volume_cm3 2 3 L * 1 = grams 1000.
Proof. apply (calculate_L_two_fixed 1000 1 2 3); lra. Defined.

(** X12: for the same mass a larger density gives a shorter cubic box. *)
Theorem calculate_L_denser_is_smaller (mass density1 density2 : R) :
  0 < mass -> 0 < density1 < density2 ->
  exists L1 L2,
    _calculate_L mass density1 None = Ok L1
    /\ _calculate_L mass density2 None = Ok L2
    /\ 0 < L2 < L1.
Proof.
  intros Hm [Hd1 Hd12].
  assert (Hd2 : 0 < density2) by lra.
  pose proof (grams_pos mass Hm) as Hg.
  assert (Hv1 : 0 < grams mass / density1) by (by apply Rdiv_lt_0_compat).
  assert (Hv2 : 0 < grams mass / density2) by (by apply Rdiv_lt_0_compat).
  exists (Rpower (grams mass / density1) (1 / 3) * 1e7),
         (Rpower (grams mass / density2) (1 / 3) * 1e7).
  split_and!.
  - unfold _calculate_L. fold (grams mass).
    rewrite (py_div_pos _ _ Hd1). simpl mbind.
    by rewrite (py_pow_pos _ _ Hv1).
  - unfold _calculate_L. fold (grams mass).
    rewrite (py_div_pos _ _ Hd2). simpl mbind.
    by rewrite (py_pow_pos _ _ Hv2).
  - apply Rmult_lt_0_compat; [unfold Rpower; apply exp_pos|lra].
  - apply Rmult_lt_compat_r; [lra|].
    apply Rlt_Rpower_l; [lra|]. split; [done|].
    unfold Rdiv. apply Rmult_lt_compat_l; [done|].
    by apply Rinv_lt_contravar; [apply Rmult_lt_0_compat|].
Qed.

Lemma calculate_L_denser_is_smaller_witness :
  exists L1 L2,
    _calculate_L 1000 1 None = Ok L1
    /\ _calculate_L 1000 2 None = Ok L2
    /\ 0 < L2 < L1.
Proof. apply (calculate_L_denser_is_smaller 1000 1 2); lra. Defined.

(** X13: [Pack] asks [fill_box] for one copy of each molecule in a cubic
    box whose side is the target side times [packing_expand_factor]: the
    box the molecules are packed in holds the mass at the target density
    divided by the cube of the factor. *)
Theorem pack_box {compound : Type} (all_molecules : list compound)
    (mass density packing_expand_factor edge : R) :
  0 < mass -> 0 < density ->
  exists L call,
    set_target_box mass density None None None = Ok [Some L; Some L; Some L]
    /\ Pack._build_system all_molecules mass density packing_expand_factor
         edge = Ok call
    /\ Pack.fb_compound call = all_molecules
    /\ Pack.fb_n_compounds call = map (fun _ => 1%nat) all_molecules
    /\ Pack.fb_box call
       = [L * packing_expand_factor; L * packing_expand_factor;
          L * packing_expand_factor]
    /\ volume_cm3 (L * packing_expand_factor) (L * packing_expand_factor)
         (L * packing_expand_factor) * density
       = packing_expand_factor ^ 3 * grams mass.
Proof.
  intros Hm Hd.
  pose proof (grams_pos mass Hm) as Hg.
  assert (Hv : 0 < grams mass / density) by (by apply Rdiv_lt_0_compat).
  assert (Hbox : set_target_box mass density None None None
                 = Ok [Some (Rpower (grams mass / density) (1 / 3) * 1e7);
                       Some (Rpower (grams mass / density) (1 / 3) * 1e7);
                       Some (Rpower (grams mass / density) (1 / 3) * 1e7)]).
  { unfold set_target_box, _calculate_L. simpl.
    fold (grams mass). rewrite (py_div_pos _ _ Hd). simpl.
    by rewrite (py_pow_pos _ _ Hv). }
  eexists _, _. split; [exact Hbox|].
  unfold Pack._build_system. rewrite Hbox.
  split_and!; [reflexivity..|].
  unfold volume_cm3.
  set (P := Rpower (grams mass / density) (1 / 3)).
  replace (P * 1e7 * packing_expand_factor * 1e-7
           * (P * 1e7 * packing_expand_factor * 1e-7)
           * (P * 1e7 * packing_expand_factor * 1e-7) * density)
    with (packing_expand_factor ^ 3 * (P * P * P) * density) by (simpl; lra).
  unfold P. rewrite (cube_root_cubed _ Hv). field. lra.
Qed.

Lemma pack_box_witness :
  exists L call,
    set_target_box 1000 1 None None None = Ok [Some L; Some L; Some L]
    /\ Pack._build_system [1%nat; 2%nat] 1000 1 5 0.2 = Ok call
    /\ Pack.fb_compound call = [1%nat; 2%nat]
    /\ Pack.fb_n_compounds call = map (fun _ => 1%nat) [1%nat; 2%nat]
    /\ Pack.fb_box call = [L * 5; L * 5; L * 5]
    /\ volume_cm3 (L * 5) (L * 5) (L * 5) * 1 = 5 ^ 3 * grams 1000.
Proof. apply (pack_box [1%nat; 2%nat] 1000 1 5 0.2); lra. Defined.

End TargetBoxEdgeFacts.

(** ** More on the reference values *)

Section RefValueMoreFacts.
Import RefValues.
Context {raw validated : Type}.
Variable validate_ref_value : raw -> dimension -> result validated.

(** X14: whatever the dictionary holds and however the setter of
    [reference_values] ends, only the references of length, mass and
    energy can have changed, and a reference that is stored afterwards
    either was there before or is the validated value of the entry of
    the same key. *)
Theorem set_reference_values_only_validated
    (rv : gmap string validated) (d : gmap string raw) :
  (forall k, k ∉ ref_keys ->
     (set_reference_values validate_ref_value rv d).1 !! k = rv !! k)
  /\ (forall k v,
        (set_reference_values validate_ref_value rv d).1 !! k = Some v ->
        rv !! k = Some v
        \/ exists x, d !! k = Some x
                     /\ validate_ref_value x (dimension_of k) = Ok v).
Proof.
  assert (Hdl : dimension_of "length" = dim_length) by reflexivity.
  assert (Hdm : dimension_of "mass" = dim_mass) by reflexivity.
  assert (Hde : dimension_of "energy" = dim_energy) by reflexivity.
  unfold set_reference_values, ref_keys, setter_loop, setattr.
  cbn [String.eqb Ascii.eqb Bool.eqb String.append].
  unfold set_reference_length, set_reference_mass, set_reference_energy.
  destruct (d !! "length") as [l|] eqn:Hl; [|by split; auto].
  destruct (validate_ref_value l dim_length) as [l'|] eqn:Hvl;
    [|by split; auto].
  assert (Hstep : forall (m : gmap string validated) k x v,
            (forall j, j ∉ ref_keys -> m !! j = rv !! j) ->
            (forall j w, m !! j = Some w ->
               rv !! j = Some w
               \/ exists y, d !! j = Some y
                            /\ validate_ref_value y (dimension_of j) = Ok w) ->
            k ∈ ref_keys -> d !! k = Some x ->
            validate_ref_value x (dimension_of k) = Ok v ->
            (forall j, j ∉ ref_keys -> <[k := v]> m !! j = rv !! j)
            /\ (forall j w, <[k := v]> m !! j = Some w ->
                  rv !! j = Some w
                  \/ exists y, d !! j = Some y
                               /\ validate_ref_value y (dimension_of j)
                                  = Ok w)).
  { intros m k x v H1 H2 Hk Hx Hv. split.
    - intros j Hj. rewrite lookup_insert_ne; [by apply H1|]. by intros <-.
    - intros j w. destruct (decide (k = j)) as [<-|Hne].
      + rewrite lookup_insert_eq. intros [= <-]. right. by exists x.
      + rewrite lookup_insert_ne by done. apply H2. }
  assert (H0 : (forall j, j ∉ ref_keys -> rv !! j = rv !! j)
               /\ (forall j w, rv !! j = Some w ->
                     rv !! j = Some w
                     \/ exists y, d !! j = Some y
                                  /\ validate_ref_value y (dimension_of j)
                                     = Ok w)) by (split; auto).
  destruct H0 as [H0a H0b].
  destruct (Hstep rv "length" l l' H0a H0b) as [H1a H1b];
    [set_unfold; auto|done|by rewrite Hdl|].
  destruct (d !! "mass") as [m|] eqn:Hm; [|by split].
  destruct (validate_ref_value m dim_mass) as [m'|] eqn:Hvm; [|by split].
  destruct (Hstep _ "mass" m m' H1a H1b) as [H2a H2b];
    [set_unfold; auto|done|by rewrite Hdm|].
  destruct (d !! "energy") as [e|] eqn:He; [|by split].
  destruct (validate_ref_value e dim_energy) as [e'|] eqn:Hve; [|by split].
  by apply (Hstep _ "energy" e e' H2a H2b);
    [set_unfold; auto|done|rewrite Hde].
Qed.

(** X15: with the three keys present and their values valid, the setter
    returns, the three getters give the validated values, and every other
    key of the references is as it was; further keys of the dictionary
    are not looked at. *)
Theorem set_reference_values_complete_dict
    (rv : gmap string validated) (d : gmap string raw)
    (l m e : raw) (l' m' e' : validated) :
  d !! "length" = Some l -> d !! "mass" = Some m -> d !! "energy" = Some e ->
  validate_ref_value l dim_length = Ok l' ->
  validate_ref_value m dim_mass = Ok m' ->
  validate_ref_value e dim_energy = Ok e' ->
  exists rv',
    set_reference_values validate_ref_value rv d = (rv', Ok ())
    /\ reference_length rv' = Some l'
    /\ reference_mass rv' = Some m'
    /\ reference_energy rv' = Some e'
    /\ forall k, k ∉ ref_keys -> rv' !! k = rv !! k.
Proof.
  intros Hl Hm He Hvl Hvm Hve.
  exists (<["energy" := e']> (<["mass" := m']> (<["length" := l']> rv))).
  split_and!.
  - unfold set_reference_values, ref_keys, setter_loop, setattr.
    cbn [String.eqb Ascii.eqb Bool.eqb String.append].
    unfold set_reference_length, set_reference_mass, set_reference_energy.
    by rewrite Hl, Hvl, Hm, Hvm, He, Hve.
  - unfold reference_length. by simplify_map_eq.
  - unfold reference_mass. by simplify_map_eq.
  - unfold reference_energy. by simplify_map_eq.
  - intros k Hk. unfold ref_keys in Hk.
    rewrite !lookup_insert_ne; [done|intros <-; set_unfold; naive_solver..].
Qed.

End RefValueMoreFacts.

Section RefValueMoreSamples.
Import RefValues.

Lemma set_reference_values_complete_dict_witness :
  exists rv',
    set_reference_values accept_all ({["time" := 1]} : gmap string nat)
      {["length" := 5; "mass" := 7; "energy" := 9; "charge" := 11]}
    = (rv', Ok ())
    /\ reference_length rv' = Some 5
    /\ reference_mass rv' = Some 7
    /\ reference_energy rv' = Some 9
    /\ forall k, k ∉ ref_keys ->
         rv' !! k = ({["time" := 1]} : gmap string nat) !! k.
Proof.
  apply (set_reference_values_complete_dict accept_all {["time" := 1]}
           {["length" := 5; "mass" := 7; "energy" := 9; "charge" := 11]}
           5 7 9 5 7 9); reflexivity.
Defined.

End RefValueMoreSamples.

(** ** More on the collection of molecules *)

Section CollectMoreFacts.
Import Collect.
Context {hoomd_force gmso_ff : Type}.
Variable xml_to_gmso_ff : string -> gmso_ff.
Implicit Types (st : @state hoomd_force gmso_ff)
               (item : @mol_item hoomd_force)
               (items : list (@mol_item hoomd_force)).

Lemma type_count_cons item items :
  type_count (item :: items)
  = (if opens_type item then 1 else 0) + type_count items.
Proof. unfold type_count. simpl. by destruct (opens_type item). Qed.

Lemma collect_subs_hoomd (subs : list sub_item) st st' :
  collect_subs subs st = Ok st' ->
  _hoomd_forcefield st' = _hoomd_forcefield st.
Proof.
  revert st. induction subs as [|[c|] subs IH]; intros st H; simpl in H.
  - by simplify_eq.
  - by rewrite (IH _ H).
  - done.
Qed.

(** One item of a supported shape, or of none. *)
Lemma collect_item_general st item :
  list_ok item ->
  exists st1,
    collect_item xml_to_gmso_ff st item = Ok st1
    /\ n_mol_types st1
       = n_mol_types st + (if opens_type item then 1 else 0)
    /\ all_molecules st1 = all_molecules st ++ item_compounds item
    /\ names st1
       = assign_mol_name (item_compounds item) (py_str (n_mol_types st))
           (names st)
    /\ _hoomd_forcefield st1 = _hoomd_forcefield st ++ item_hoomd_forces item.
Proof.
  destruct item as [m|c|subs|]; simpl; intros Hok.
  - eexists. split; [reflexivity|]. simpl. split_and!; try done.
    destruct (force_field m) as [|forces|xml]; simpl; rewrite ?app_nil_r; try done.
    destruct forces; simpl; by rewrite ?app_nil_r.
  - eexists. split; [reflexivity|]. simpl.
    rewrite Nat.add_0_r, app_nil_r. done.
  - assert (Hall : Forall (fun s => s <> SubOther) subs).
    { apply Forall_forall. by intros s Hs ->. }
    destruct (collect_subs_compounds subs st Hall)
      as (st' & Hrun & Hn & Hm & Hnm & _).
    rewrite Hrun. eexists. split; [reflexivity|]. simpl.
    rewrite Hn, Hm, Hnm, (collect_subs_hoomd subs st st' Hrun), app_nil_r.
    done.
  - exists st. rewrite Nat.add_0_r, !app_nil_r. done.
Qed.

Lemma collect_general items st :
  Forall list_ok items ->
  exists st',
    collect xml_to_gmso_ff st items = Ok st'
    /\ n_mol_types st' = n_mol_types st + type_count items
    /\ all_molecules st'
       = all_molecules st ++ concat (map item_compounds items)
    /\ _hoomd_forcefield st'
       = _hoomd_forcefield st ++ concat (map item_hoomd_forces items)
    /\ (forall c,
          (forall item, item ∈ items -> c ∉ item_compounds item) ->
          names st' !! c = names st !! c)
    /\ (forall i item c,
          items !! i = Some item -> c ∈ item_compounds item ->
          (forall j item', i < j -> items !! j = Some item' ->
                           c ∉ item_compounds item') ->
          names st' !! c
          = Some (py_str (n_mol_types st + type_count (take i items)))).
Proof.
  intros Hall. revert st.
  induction Hall as [|item items Hitem _ IH]; intros st.
  - exists st. simpl. rewrite !app_nil_r. unfold type_count. simpl.
    rewrite Nat.add_0_r.
    split_and!; try done; intros i item c Hi; by rewrite lookup_nil in Hi.
  - destruct (collect_item_general st item Hitem)
      as (st1 & H1 & Hn1 & Hm1 & Hnm1 & Hf1).
    destruct (IH st1) as (st' & H2 & Hn2 & Hm2 & Hf2 & Hkeep & Hname).
    exists st'. simpl. rewrite H1. simpl.
    split_and!; [done| | | | |].
    + rewrite Hn2, Hn1, type_count_cons. lia.
    + by rewrite Hm2, Hm1, <- app_assoc.
    + by rewrite Hf2, Hf1, <- app_assoc.
    + intros c Hc. rewrite Hkeep, Hnm1.
      * apply assign_mol_name_notin, Hc, list_elem_of_here.
      * intros it Hit. by apply Hc, list_elem_of_further.
    + intros [|i] it c Hi Hc Hlater; simpl in Hi.
      * simplify_eq. rewrite Hkeep, Hnm1.
        -- unfold type_count. simpl. rewrite Nat.add_0_r.
           by apply assign_mol_name_in.
        -- intros it' Hit'. apply list_elem_of_lookup in Hit' as [j Hj].
           apply (Hlater (S j)); [lia|done].
      * rewrite (Hname i it c Hi Hc).
        -- simpl take. rewrite type_count_cons, Hn1. f_equal. f_equal. lia.
        -- intros j it' Hij Hj. apply (Hlater (S j)); [lia|done].
Qed.

(** X16: when no list item holds anything but compounds, the collection
    returns; [n_mol_types] is the number of [Molecule] and list items
    (bare compounds and items of other types do not count), and
    [all_molecules] holds the compounds of the items in order, so that
    [n_molecules] is their number. *)
Theorem collect_counts (names0 : gmap nat string) items :
  Forall list_ok items ->
  exists st,
    collect xml_to_gmso_ff (init_state names0) items = Ok st
    /\ n_mol_types st = type_count items
    /\ all_molecules st = concat (map item_compounds items)
    /\ length (all_molecules st)
       = sum_list (map (fun item => length (item_compounds item)) items).
Proof.
  intros Hall.
  destruct (collect_general items (init_state names0) Hall)
    as (st & Hrun & Hn & Hm & _).
  simpl in *. exists st. split_and!; [done|done|done|].
  rewrite Hm. clear. induction items as [|item items IH]; [done|].
  simpl. by rewrite length_app, IH.
Qed.

(** X17: under the same condition, a compound of the item at position [i]
    (not held again by a later item) ends with the name [str(t)], [t]
    being the number of [Molecule] and list items before position [i]; a
    bare compound thus gets the name of the next [Molecule] or list. *)
Theorem collect_names (names0 : gmap nat string) items :
  Forall list_ok items ->
  exists st,
    collect xml_to_gmso_ff (init_state names0) items = Ok st
    /\ forall i item c,
         items !! i = Some item -> c ∈ item_compounds item ->
         (forall j item', i < j -> items !! j = Some item' ->
                          c ∉ item_compounds item') ->
         names st !! c = Some (py_str (type_count (take i items))).
Proof.
  intros Hall.
  destruct (collect_general items (init_state names0) Hall)
    as (st & Hrun & _ & _ & _ & _ & Hname).
  exists st. split; [done|]. intros i item c Hi Hc Hlater.
  by rewrite (Hname i item c Hi Hc Hlater).
Qed.

(** X18: under the same condition, [_hoomd_forcefield] ends as the HOOMD
    forces of the [Molecule] items, in the order of the items. *)
Theorem collect_hoomd_forces (names0 : gmap nat string) items :
  Forall list_ok items ->
  exists st,
    collect xml_to_gmso_ff (init_state names0) items = Ok st
    /\ _hoomd_forcefield st = concat (map item_hoomd_forces items).
Proof.
  intros Hall.
  destruct (collect_general items (init_state names0) Hall)
    as (st & Hrun & _ & _ & Hf & _).
  by exists st.
Qed.

Lemma collect_subs_raise (subs : list sub_item) st (e : exn) :
  collect_subs subs st = Raise e ->
  e = MoleculeLoadError /\ SubOther ∈ subs.
Proof.
  revert st. induction subs as [|[c|] subs IH]; intros st H; simpl in H.
  - done.
  - destruct (IH _ H) as [-> Hin]. split; [done|].
    by apply list_elem_of_further.
  - simplify_eq. split; [done|apply list_elem_of_here].
Qed.

Lemma collect_subs_clean (subs : list sub_item) st st' :
  collect_subs subs st = Ok st' -> SubOther ∉ subs.
Proof.
  revert st. induction subs as [|[c|] subs IH]; intros st H; simpl in H.
  - apply not_elem_of_nil.
  - apply not_elem_of_cons. split; [done|]. by eapply IH.
  - done.
Qed.

Lemma collect_raise items st (e : exn) :
  collect xml_to_gmso_ff st items = Raise e ->
  e = MoleculeLoadError /\ Exists (fun item => ~ list_ok item) items.
Proof.
  revert st. induction items as [|item items IH]; intros st H; simpl in H.
  - done.
  - destruct (collect_item xml_to_gmso_ff st item) as [st1|e1] eqn:H1;
      simpl in H.
    + destruct (IH _ H) as [-> Hex]. split; [done|by apply Exists_cons_tl].
    + simplify_eq. destruct item as [m|c|subs|]; simpl in H1; try done.
      destruct (collect_subs subs st) as [st'|e'] eqn:Hs; simpl in H1;
        [done|]. simplify_eq.
      destruct (collect_subs_raise subs st e Hs) as [-> Hin].
      split; [done|]. apply Exists_cons_hd. simpl. by intros Hok.
Qed.

Lemma collect_raises_exists st items :
  (exists e, collect xml_to_gmso_ff st items = Raise e)
  <-> Exists (fun item => ~ list_ok item) items.
Proof.
  split.
  - intros [e H]. by apply collect_raise in H as [_ H].
  - intros Hex.
    destruct (collect xml_to_gmso_ff st items) as [st'|e] eqn:H;
      [|by exists e].
    exfalso. revert st st' H.
    induction Hex as [item items Hbad|item items _ IH]; intros st st' H;
      simpl in H.
    + destruct item as [m|c|subs|]; simpl in Hbad; try (by apply Hbad).
      simpl in H.
      destruct (collect_subs subs st) as [st1|e1] eqn:Hs; [|done].
      by apply Hbad, (collect_subs_clean subs st st1).
    + destruct (collect_item xml_to_gmso_ff st item) as [st1|e1];
        simpl in H; [by eapply IH|done].
Qed.

(** X19: the collection raises [MoleculeLoadError] exactly when some
    list item holds something that is not a compound, and it raises
    nothing else. *)
Theorem collect_raises_iff st items :
  (collect xml_to_gmso_ff st items = Raise MoleculeLoadError
   <-> Exists (fun item => ~ list_ok item) items)
  /\ (forall e, collect xml_to_gmso_ff st items = Raise e ->
                e = MoleculeLoadError).
Proof.
  split; [split|].
  - intros H. by apply collect_raise in H as [_ H].
  - intros Hex.
    destruct (proj2 (collect_raises_exists st items) Hex) as [e H].
    by destruct (collect_raise items st e H) as [-> _].
  - intros e H. by apply collect_raise in H as [H _].
Qed.

End CollectMoreFacts.

Section CollectMoreSamples.
Import Collect Samples.

Lemma mixed_items_ok : Forall list_ok mixed_items.
Proof.
  repeat constructor. simpl. rewrite list_elem_of_singleton. discriminate.
Qed.

Lemma collect_counts_witness :
  exists st,
    @collect string string load_xml (init_state ∅) mixed_items = Ok st
    /\ n_mol_types st = type_count mixed_items
    /\ all_molecules st = concat (map item_compounds mixed_items)
    /\ length (all_molecules st)
       = sum_list (map (fun item => length (item_compounds item))
                     mixed_items).
Proof. apply (collect_counts load_xml ∅ mixed_items), mixed_items_ok. Defined.

Lemma collect_names_witness :
  exists st,
    @collect string string load_xml (init_state ∅) mixed_items = Ok st
    /\ forall i item c,
         mixed_items !! i = Some item -> c ∈ item_compounds item ->
         (forall j item', i < j -> mixed_items !! j = Some item' ->
                          c ∉ item_compounds item') ->
         names st !! c = Some (py_str (type_count (take i mixed_items))).
Proof. apply (collect_names load_xml ∅ mixed_items), mixed_items_ok. Defined.

Lemma collect_hoomd_forces_witness :
  exists st,
    @collect string string load_xml (init_state ∅) mixed_items = Ok st
    /\ _hoomd_forcefield st = concat (map item_hoomd_forces mixed_items).
Proof.
  apply (collect_hoomd_forces load_xml ∅ mixed_items), mixed_items_ok.
Defined.

(** What [mixed_items] gives: three molecule types, the bare compound 5
    named as the first molecule is. *)
Lemma collect_mixed_items :
  exists st,
    @collect string string load_xml (init_state ∅) mixed_items = Ok st
    /\ n_mol_types st = 3
    /\ all_molecules st = [5; 0; 1; 3; 2]
    /\ _hoomd_forcefield st = ["lj"; "bond"]
    /\ names st !! 5 = Some "0" /\ names st !! 0 = Some "0"
    /\ names st !! 3 = Some "1" /\ names st !! 2 = Some "2".
Proof. eexists. split; [reflexivity|]. split_and!; reflexivity. Qed.

End CollectMoreSamples.

(** ** More on the collection of force fields *)

Section ForceFieldMoreFacts.
Import Collect.
Context {hoomd_force gmso_ff : Type}.
Variable truth : gmso_ff -> bool.
Implicit Types (st : @state hoomd_force gmso_ff)
               (ff : list (@ff_entry gmso_ff)).

Lemma forcefield_step_provided ff st (i : nat) :
  0 < length ff -> all_provide truth ff ->
  exists st',
    forcefield_step truth ff st i = Ok st'
    /\ n_mol_types st' = n_mol_types st
    /\ (opt_truthy truth (_gmso_forcefields_dict st !! py_str i) = true ->
        st' = st)
    /\ (opt_truthy truth (_gmso_forcefields_dict st !! py_str i) = false ->
        exists g, ff !! ff_index i (length ff) = Some (Attribute (Some g))
                  /\ truth g = true
                  /\ st' = set_gmso_ff st (py_str i) g).
Proof.
  intros Hlen Hall. unfold forcefield_step, getitem.
  destruct (opt_truthy truth (_gmso_forcefields_dict st !! py_str i)) eqn:E;
    simpl.
  - exists st. split_and!; [done|done|done|done].
  - destruct (lookup_lt_is_Some_2 ff _ (ff_index_lt i _ Hlen))
      as [entry Hentry].
    rewrite Hentry. simpl.
    unfold all_provide in Hall. rewrite Forall_forall in Hall.
    destruct (Hall entry (list_elem_of_lookup_2 _ _ _ Hentry))
      as (g & -> & Hg).
    simpl. rewrite Hg. eexists. split_and!; [done|done|done|].
    intros _. by exists g.
Qed.

Lemma forcefield_loop_provided ff (range : list nat) st :
  0 < length ff -> all_provide truth ff ->
  exists st',
    forcefield_loop truth ff st range = Ok st'
    /\ n_mol_types st' = n_mol_types st
    /\ all_molecules st' = all_molecules st
    /\ (forall k g, _gmso_forcefields_dict st !! k = Some g ->
                    truth g = true ->
                    _gmso_forcefields_dict st' !! k = Some g)
    /\ (forall i, i ∈ range ->
          opt_truthy truth (_gmso_forcefields_dict st !! py_str i) = false ->
          exists g, ff !! ff_index i (length ff) = Some (Attribute (Some g))
                    /\ _gmso_forcefields_dict st' !! py_str i = Some g).
Proof.
  intros Hlen Hall. revert st.
  induction range as [|i0 range IH]; intros st.
  - exists st. split_and!; try done. intros i Hi. by apply elem_of_nil in Hi.
  - destruct (forcefield_step_provided ff st i0 Hlen Hall)
      as (st1 & Hrun1 & Hn1 & Hsame & Hset).
    destruct (IH st1) as (st' & Hrun & Hn & Hm & Hkeep & Hassign).
    assert (Hkeep1 : forall k g, _gmso_forcefields_dict st !! k = Some g ->
                                 truth g = true ->
                                 _gmso_forcefields_dict st1 !! k = Some g).
    { intros k g Hk Hg.
      destruct (opt_truthy truth (_gmso_forcefields_dict st !! py_str i0))
        eqn:E.
      - by rewrite (Hsame eq_refl).
      - destruct (Hset eq_refl) as (g1 & _ & _ & ->). simpl.
        rewrite lookup_insert_ne; [done|]. intros <-.
        rewrite Hk in E. simpl in E. congruence. }
    assert (Hm1 : all_molecules st1 = all_molecules st).
    { destruct (opt_truthy truth (_gmso_forcefields_dict st !! py_str i0))
        eqn:E.
      - by rewrite (Hsame eq_refl).
      - by destruct (Hset eq_refl) as (g1 & _ & _ & ->). }
    exists st'. simpl. rewrite Hrun1. simpl mbind.
    split_and!; [done|congruence|congruence| |].
    + intros k g Hk Hg. apply Hkeep; [by apply Hkeep1|done].
    + intros i Hi Hfalsy. destruct (decide (i = i0)) as [->|Hne].
      * destruct (Hset Hfalsy) as (g & Hentry & Hg & ->).
        exists g. split; [done|]. apply Hkeep; [|done].
        simpl. apply lookup_insert_eq.
      * apply elem_of_cons in Hi as [?|Hi]; [done|].
        apply Hassign; [done|].
        destruct (opt_truthy truth (_gmso_forcefields_dict st !! py_str i0))
          eqn:E.
        -- by rewrite (Hsame eq_refl).
        -- destruct (Hset eq_refl) as (g1 & _ & _ & ->). simpl.
           rewrite lookup_insert_ne; [done|].
           unfold py_str. intros Heq. apply (inj pretty) in Heq. congruence.
Qed.

(** X20: when every entry of a non-empty [force_field] list provides a
    GMSO force field, the collection of force fields returns and a force
    field a molecule type already has (from its [Molecule]) is kept as it
    is: the system force field never replaces it. *)
Theorem collect_forcefields_keeps_own ff st :
  0 < length ff -> all_provide truth ff ->
  exists st',
    collect_forcefields truth (Some ff) st = Ok st'
    /\ forall k g, _gmso_forcefields_dict st !! k = Some g ->
                   truth g = true ->
                   _gmso_forcefields_dict st' !! k = Some g.
Proof.
  intros Hlen Hall.
  destruct (forcefield_loop_provided ff (seq 0 (n_mol_types st)) st Hlen Hall)
    as (st' & Hrun & _ & _ & Hkeep & _).
  exists st'. split; [|done].
  unfold collect_forcefields. destruct ff; [simpl in Hlen; lia|done].
Qed.

(** X21: under the same condition, every molecule type without a force
    field of its own ends with the [gmso_ff] of the entry at its own
    index, or of the entry at index 0 when the list is shorter; the
    number of molecule types and the molecules are untouched. *)
Theorem collect_forcefields_assigns ff st :
  0 < length ff -> all_provide truth ff ->
  exists st',
    collect_forcefields truth (Some ff) st = Ok st'
    /\ n_mol_types st' = n_mol_types st
    /\ all_molecules st' = all_molecules st
    /\ forall i, i < n_mol_types st ->
         opt_truthy truth (_gmso_forcefields_dict st !! py_str i) = false ->
         exists g,
           ff !! (if i <? length ff then i else 0) = Some (Attribute (Some g))
           /\ _gmso_forcefields_dict st' !! py_str i = Some g.
Proof.
  intros Hlen Hall.
  destruct (forcefield_loop_provided ff (seq 0 (n_mol_types st)) st Hlen Hall)
    as (st' & Hrun & Hn & Hm & _ & Hassign).
  exists st'. split_and!; [|done|done|].
  - unfold collect_forcefields. destruct ff; [simpl in Hlen; lia|done].
  - intros i Hi. apply Hassign, elem_of_seq. lia.
Qed.

End ForceFieldMoreFacts.

Section ForceFieldMoreSamples.
Import Collect Samples.

Lemma one_entry_provides : all_provide ff_truth [Attribute (Some "opls")].
Proof. repeat constructor. by exists "opls". Qed.

Lemma collect_forcefields_keeps_own_witness :
  exists st',
    collect_forcefields ff_truth (Some [Attribute (Some "opls")]) two_types
    = Ok st'
    /\ forall k g, _gmso_forcefields_dict two_types !! k = Some g ->
                   ff_truth g = true ->
                   _gmso_forcefields_dict st' !! k = Some g.
Proof.
  apply (collect_forcefields_keeps_own ff_truth [Attribute (Some "opls")]
           two_types); [simpl; lia|apply one_entry_provides].
Defined.

Lemma collect_forcefields_assigns_witness :
  exists st',
    collect_forcefields ff_truth (Some [Attribute (Some "opls")]) two_types
    = Ok st'
    /\ n_mol_types st' = n_mol_types two_types
    /\ all_molecules st' = all_molecules two_types
    /\ forall i, i < n_mol_types two_types ->
         opt_truthy ff_truth (_gmso_forcefields_dict two_types !! py_str i)
         = false ->
         exists g,
           [Attribute (Some "opls")]
             !! (if i <? length [@Attribute string (Some "opls")]
                 then i else 0)
           = Some (Attribute (Some g))
           /\ _gmso_forcefields_dict st' !! py_str i = Some g.
Proof.
  apply (collect_forcefields_assigns ff_truth [Attribute (Some "opls")]
           two_types); [simpl; lia|apply one_entry_provides].
Defined.

(** The force fields [two_types] ends with. *)
Lemma collect_forcefields_two_types :
  exists st',
    collect_forcefields ff_truth (Some [Attribute (Some "opls")]) two_types
    = Ok st'
    /\ _gmso_forcefields_dict st' !! "0" = Some "own"
    /\ _gmso_forcefields_dict st' !! "1" = Some "opls".
Proof. eexists. split; [reflexivity|]. split; reflexivity. Qed.

Lemma forcefield_loop_raises_witness :
  @forcefield_loop string string ff_truth
    [Attribute (Some "opls"); Attribute None] two_types [0; 1]
  = Raise ForceFieldError.
Proof.
  apply (forcefield_loop_raises ff_truth
           [Attribute (Some "opls"); Attribute None] [0; 1] two_types 1 None).
  - simpl. lia.
  - repeat constructor; discriminate.
  - apply list_elem_of_further, list_elem_of_here.
  - reflexivity.
  - reflexivity.
  - reflexivity.
Defined.

End ForceFieldMoreSamples.

(** ** More on the application of the force field *)

Section ApplyMoreFacts.
Import Charges ApplyFF.
Local Open Scope Q_scope.

Variable apply : list site -> list site.
Variable factor : string -> string -> Q.

(** Once the charges are dealt with, a topology with a site goes through
    the rest of [_apply_forcefield]. *)
Lemma apply_forcefield_after_charges (self : system) (sites' : list site) :
  (if scale_charges self && negb (remove_charges self)
   then _scale_charges
          (if remove_charges self
           then map (fun s => set_charge s (Some 0)) (apply (gmso_system self))
           else apply (gmso_system self))
   else Ok (if remove_charges self
            then map (fun s => set_charge s (Some 0)) (apply (gmso_system self))
            else apply (gmso_system self))) = Ok sites' ->
  sites' <> [] ->
  exists self',
    _apply_forcefield apply factor self = Ok self'
    /\ gmso_system self' = sites'.
Proof.
  intros Hrun Hne. unfold _apply_forcefield. cbv zeta.
  rewrite Hrun. simpl mbind.
  destruct sites' as [|s0 rest]; [done|].
  destruct (auto_scale self); simpl; eexists; split; reflexivity.
Qed.

Lemma net_charge_all_zero (sites : list site) :
  Forall (fun s => charge s = Some 0) sites -> net_charge sites == 0.
Proof.
  induction 1 as [|s sites Hs _ IH]; [reflexivity|].
  rewrite net_charge_cons, IH. unfold charge_or_zero. rewrite Hs. reflexivity.
Qed.

(** X23: with [remove_charges] set, and whatever [scale_charges] says,
    [_apply_forcefield] on a topology with at least one site returns a
    system in which every site has the charge 0, so that its net charge
    is 0. *)
Theorem apply_forcefield_removes_charges (self : system) :
  apply (gmso_system self) <> [] ->
  remove_charges self = true ->
  exists self',
    _apply_forcefield apply factor self = Ok self'
    /\ Forall (fun s => charge s = Some 0) (gmso_system self')
    /\ net_charge (gmso_system self') == 0.
Proof.
  intros Hne Hrm.
  destruct (apply_forcefield_after_charges self
              (map (fun s => set_charge s (Some 0)) (apply (gmso_system self))))
    as (self' & Hrun & Hsites).
  - rewrite Hrm. by rewrite andb_false_r.
  - by destruct (apply (gmso_system self)).
  - assert (Hall : Forall (fun s => charge s = Some 0) (gmso_system self')).
    { rewrite Hsites. apply Forall_forall. intros s Hs.
      by apply list_elem_of_fmap in Hs as (s0 & -> & _). }
    exists self'. split_and!; [done|done|by apply net_charge_all_zero].
Qed.

Lemma abs_sum_zero_net (sites : list site) :
  abs_sum sites == 0 -> net_charge sites == 0.
Proof.
  intros H. pose proof (net_charge_le_abs_sum sites) as Hle.
  rewrite H in Hle. apply Qabs_Qle_condition in Hle as [Hl Hu].
  apply Qle_antisym; [done|]. by rewrite <- (Qopp_opp 0).
Qed.

(** X24: with [scale_charges] set and [remove_charges] not, on a topology
    with at least one site and a charge on every site,
    [_apply_forcefield] returns a system whose net charge is 0. *)
Theorem apply_forcefield_neutralizes (self : system) :
  apply (gmso_system self) <> [] ->
  scale_charges self = true -> remove_charges self = false ->
  Forall (fun s => charge s <> None) (apply (gmso_system self)) ->
  exists self',
    _apply_forcefield apply factor self = Ok self'
    /\ net_charge (gmso_system self') == 0.
Proof.
  intros Hne Hsc Hrm Hall.
  set (sites := apply (gmso_system self)) in *.
  assert (Hscaled : exists sites',
            _scale_charges sites = Ok sites'
            /\ sites' <> [] /\ net_charge sites' == 0).
  { unfold _scale_charges. fold (abs_sum sites). fold (net_charge sites).
    destruct (Qeq_bool (abs_sum sites) 0) eqn:E; simpl.
    - exists sites. split_and!; [done|done|].
      apply abs_sum_zero_net. by apply Qeq_bool_iff.
    - apply Qeq_bool_neq in E.
      destruct (scale_loop_ok (net_charge sites / abs_sum sites) sites Hall)
        as (sites' & Hrun & Hrel).
      exists sites'.
      split_and!; [done| |exact (scale_loop_neutral sites sites' E Hrel)].
      intros ->. apply Forall2_nil_inv_r in Hrel. done. }
  destruct Hscaled as (sites' & Hrun & Hne' & Hnet).
  destruct (apply_forcefield_after_charges self sites') as (self' & H & Hs).
  - rewrite Hsc, Hrm. simpl. exact Hrun.
  - done.
  - exists self'. split; [done|]. by rewrite Hs.
Qed.

(** X25: on a topology without sites [_apply_forcefield] raises: the
    [ValueError] of [np.max] under [auto_scale], the [IndexError] of
    [epsilons[0]] otherwise. *)
Theorem apply_forcefield_no_sites (self : system) :
  apply (gmso_system self) = [] ->
  _apply_forcefield apply factor self
  = Raise (if auto_scale self
           then ValueError "zero-size array to reduction operation"
           else IndexError).
Proof.
  intros Hnil. unfold _apply_forcefield. cbv zeta. rewrite Hnil.
  destruct (remove_charges self), (scale_charges self), (auto_scale self);
    reflexivity.
Qed.

End ApplyMoreFacts.

Section ApplyMoreSamples.
Import Charges ApplyFF Samples.
Local Open Scope Q_scope.

Lemma apply_forcefield_removes_charges_witness :
  exists self',
    _apply_forcefield apply_nothing unit_factor uncharged_system = Ok self'
    /\ Forall (fun s => charge s = Some 0) (gmso_system self')
    /\ net_charge (gmso_system self') == 0.
Proof.
  apply (apply_forcefield_removes_charges apply_nothing unit_factor
           uncharged_system); [discriminate|reflexivity].
Defined.

Lemma apply_forcefield_neutralizes_witness :
  exists self',
    _apply_forcefield apply_nothing unit_factor auto_system = Ok self'
    /\ net_charge (gmso_system self') == 0.
Proof.
  apply (apply_forcefield_neutralizes apply_nothing unit_factor auto_system);
    [discriminate|reflexivity|reflexivity|].
  repeat constructor; discriminate.
Defined.

Lemma apply_forcefield_no_sites_witness :
  _apply_forcefield apply_nothing unit_factor empty_system
  = Raise (if auto_scale empty_system
           then ValueError "zero-size array to reduction operation"
           else IndexError).
Proof.
  apply (apply_forcefield_no_sites apply_nothing unit_factor empty_system).
  reflexivity.
Defined.

End ApplyMoreSamples.

(** ** More on the lattice *)

Section LatticeMoreFacts.
Import Lattice.
Context {compound : Type}.
Implicit Types (all : list compound) (layer : list (@unit_cell compound)).

(** One turn of the inner loop, seen from the cells. *)
Lemma cell_turn_cells all (x0 j : nat) layer (x : nat) :
  x = x0 + 2 * length layer ->
  length layer = j \/ length all <= x + 1 ->
  length layer <= j ->
  cells_from all x0 layer ->
  exists layer' x',
    cell_turn all j (layer, x) = Ok (layer', x')
    /\ x' = x0 + 2 * length layer'
    /\ (length layer' = S j \/ length all <= x' + 1)
    /\ length layer' <= S j
    /\ cells_from all x0 layer'.
Proof.
  intros Hx Hfull Hle Hcells. unfold cell_turn, try_body, getitem.
  destruct (Nat.ltb_spec (x + 1) (length all)) as [Hlt|Hge].
  - destruct Hfull as [Hj|Hex]; [|lia].
    destruct (lookup_lt_is_Some_2 all x) as [a Ha]; [lia|].
    destruct (lookup_lt_is_Some_2 all (x + 1)) as [b Hb]; [lia|].
    rewrite Ha. simpl. rewrite Hb. simpl.
    eexists _, _. split; [reflexivity|].
    rewrite length_app. simpl. split_and!; [lia|left; lia|lia|].
    intros j' cell Hcell.
    apply lookup_snoc_Some in Hcell as [[_ Hcell]|[-> <-]].
    + by apply Hcells.
    + cbn [cell_j comp1 comp2].
      split_and!; [by symmetry|by rewrite <- Hx..].
  - exists layer, x. split_and!; [|done|by right|lia|done].
    destruct (all !! x) as [a|] eqn:Ha; simpl; [|done].
    by rewrite (lookup_ge_None_2 all (x + 1)) by lia.
Qed.

Lemma layer_loop_cells all (x0 j len : nat) layer (x : nat) :
  x = x0 + 2 * length layer ->
  length layer = j \/ length all <= x + 1 ->
  length layer <= j ->
  cells_from all x0 layer ->
  exists layer' x',
    layer_loop all (seq j len) (layer, x) = Ok (layer', x')
    /\ x' = x0 + 2 * length layer'
    /\ (length layer' = j + len \/ length all <= x' + 1)
    /\ length layer' <= j + len
    /\ cells_from all x0 layer'.
Proof.
  revert j layer x.
  induction len as [|len IH]; intros j layer x Hx Hfull Hle Hc.
  - exists layer, x. rewrite Nat.add_0_r.
    split_and!; first [done|assumption|lia].
  - destruct (cell_turn_cells all x0 j layer x Hx Hfull Hle Hc)
      as (layer1 & x1 & H1 & Hx1 & Hfull1 & Hle1 & Hc1).
    destruct (IH (S j) layer1 x1 Hx1 Hfull1 Hle1 Hc1)
      as (layer' & x' & H2 & Hx' & Hfull' & Hle' & Hc').
    exists layer', x'. cbn [seq layer_loop]. rewrite H1. simpl mbind.
    split_and!; [done|done| |lia|done].
    destruct Hfull' as [?|?]; [left; lia|by right].
Qed.

Lemma system_loop_cells all (n k len : nat)
    (system : list (@layer compound)) (x : nat) :
  length system = k ->
  x = 2 * (k * n) \/ length all <= x + 1 ->
  layers_from all n system ->
  exists system' x',
    system_loop all n (seq k len) (system, x) = Ok (system', x')
    /\ length system' = k + len
    /\ layers_from all n system'.
Proof.
  revert k system x.
  induction len as [|len IH]; intros k system x Hk Hx Hsys.
  - exists system, x. simpl. split_and!; [done|lia|done].
  - assert (Hlayer : exists layer' x',
              layer_loop all (seq 0 n) ([], x) = Ok (layer', x')
              /\ (x' = 2 * (S k * n) \/ length all <= x' + 1)
              /\ length layer' <= n
              /\ cells_from all (2 * (k * n)) layer').
    { destruct (layer_loop_cells all x 0 n [] x)
        as (layer' & x' & H1 & Hx' & Hfull' & Hle' & Hc');
        [simpl; lia|by left|done|
         by intros j cell Hj; rewrite lookup_nil in Hj|].
      exists layer', x'. split_and!; [done| |done|].
      - destruct Hx as [->|Hex].
        + destruct Hfull' as [Hn|?]; [left; simpl in Hn; lia|by right].
        + right. destruct Hfull' as [Hn|?]; [|done].
          destruct layer' as [|cell layer']; [simpl in *; lia|].
          destruct (Hc' 0 cell eq_refl) as (_ & _ & H2).
          apply lookup_lt_Some in H2. lia.
      - destruct Hx as [->|Hex]; [done|].
        destruct layer' as [|cell layer'].
        + by intros j c Hj; rewrite lookup_nil in Hj.
        + destruct (Hc' 0 cell eq_refl) as (_ & _ & H2).
          apply lookup_lt_Some in H2. lia. }
    destruct Hlayer as (layer' & x' & H1 & Hx' & Hle' & Hc').
    destruct (IH (S k) (system ++ [{| cells := layer'; layer_i := k |}]) x')
      as (system' & x'' & H2 & Hlen & Hsys').
    + rewrite length_app. simpl. lia.
    + done.
    + intros k' l Hl.
      apply lookup_snoc_Some in Hl as [[_ Hl]|[-> <-]].
      * by apply Hsys.
      * simpl. rewrite Hk. done.
    + exists system', x''. cbn [seq system_loop]. rewrite H1. simpl mbind.
      split_and!; [done|lia|done].
Qed.

(** X26: where the molecules go: cell [j] of layer [k] of the built
    system is marked with row [j] and column [k] and holds the molecules
    at positions [2 * (k * n + j)] and [2 * (k * n + j) + 1] of
    [all_molecules]; there are [n] layers of at most [n] cells. *)
Theorem lattice_build_placement all (n : nat) :
  exists system,
    _build_system all n = Ok system
    /\ length system = n
    /\ forall k l j cell,
         system !! k = Some l -> cells l !! j = Some cell ->
         layer_i l = k /\ cell_j cell = j /\ j < n
         /\ all !! (2 * (k * n + j)) = Some (comp1 cell)
         /\ all !! (2 * (k * n + j) + 1) = Some (comp2 cell).
Proof.
  destruct (system_loop_cells all n 0 n [] 0)
    as (system & x & Hrun & Hlen & Hsys);
    [done|by left|by intros k l Hl; rewrite lookup_nil in Hl|].
  exists system. unfold _build_system. rewrite Hrun. simpl mbind.
  split_and!; [done|done|].
  intros k l j cell Hl Hcell.
  destruct (Hsys k l Hl) as (Hi & Hle & Hc).
  destruct (Hc j cell Hcell) as (Hj & Ha & Hb).
  pose proof (lookup_lt_Some _ _ _ Hcell) as Hjl.
  replace (2 * (k * n + j)) with (2 * (k * n) + 2 * j) by lia.
  split_and!; [done|done|lia|done|done].
Qed.

End LatticeMoreFacts.
